(** * SynapseWell backend: a shallow embedding of the server bootstrap,
      the Next.js configuration, the Inngest Express adapter and the
      stress-signal detector.

    Layout:
    - [JsString]   the few [String.prototype] operations the sources call;
    - [NextConfig] the [pageExtensions] entry of the Next.js configuration;
    - [Server]     the module-level start-up script of the Express backend
                   and [connectDB];
    - [Adapter]    the [headers] and [queryString] accessors of the vendored
                   Inngest adapter for Express;
    - [Detector]   the stress-signal detector ([assess] and [escalate]).

    JavaScript strings are modelled as [string] (a sequence of 8-bit
    characters), JavaScript objects used as dictionaries ([process.env],
    [req.headers], [req.query]) as [gmap string _]. *)

From Stdlib Require Import Ascii NArith ZArith Bool Lia.
From stdpp Require Import base gmap strings list pretty.

(** ** JavaScript string operations *)

Module JsString.

(** [s.startsWith(p)]. *)
Fixpoint startsWith (s p : string) : bool :=
  match p, s with
  | EmptyString, _ => true
  | String _ _, EmptyString => false
  | String a p', String b s' => if Ascii.eqb a b then startsWith s' p' else false
  end.

(** [s.includes(sub)]: [sub] occurs at some offset of [s]. *)
Fixpoint includes (s sub : string) : bool :=
  startsWith s sub ||
  match s with
  | EmptyString => false
  | String _ s' => includes s' sub
  end.

(** ASCII case folding, the part of [s.toLowerCase()] that acts on
    the characters 'A'..'Z'. *)
Definition lowerChar (c : ascii) : ascii :=
  let n := N_of_ascii c in
  if ((65 <=? n) && (n <=? 90))%N then ascii_of_N (n + 32) else c.

Fixpoint toLowerCase (s : string) : string :=
  match s with
  | EmptyString => EmptyString
  | String c s' => String (lowerChar c) (toLowerCase s')
  end.

(** [s.repeat(n)]. *)
Fixpoint repeat (s : string) (n : nat) : string :=
  match n with
  | O => EmptyString
  | S n' => s +:+ repeat s n'
  end.

End JsString.

(** ** next.config: [pageExtensions] *)

Module NextConfig.
Import JsString.

(** pageExtensions: ["tsx", "ts", "jsx", "js"].filter(
      (ext) => !ext.includes("spec")) *)
Definition pageExtensions : list string :=
  List.filter (fun ext => negb (includes ext "spec"))
              ["tsx"; "ts"; "jsx"; "js"].

End NextConfig.

(** ** The Express server bootstrap and [connectDB] *)

Module Server.

(** What the start-up script does to the outside world, in order. *)
Inductive PortValue :=
| PortString (s : string)        (* the text of process.env.PORT *)
| PortNumber (n : Z).            (* the numeric literal 3001 *)

Inductive Event :=
| EvDotenvConfig
| EvCreateApp                                   (* express() *)
| EvUseCors (origin : option string)
| EvUse (mount : string)                        (* app.use / app.get *)
| EvUseMorgan (format : string)
| EvMongooseConnect (uri : string)
| EvLogInfo (msg : string)
| EvLogError (msg : string) (error : string)
| EvListen (port : PortValue).

(** How a piece of the script ends: normally, by a thrown error, or by
    [process.exit(code)], which no [catch] intercepts. *)
Inductive Completion (A : Type) :=
| Normal (a : A)
| Thrown (err : string)
| Exited (code : Z).
Arguments Normal {A} a.
Arguments Thrown {A} err.
Arguments Exited {A} code.

Definition M (A : Type) : Type := list Event → Completion A * list Event.

Definition ret {A} (a : A) : M A := λ tr, (Normal a, tr).
Definition bind {A B} (m : M A) (k : A → M B) : M B :=
  λ tr, match m tr with
        | (Normal a, tr') => k a tr'
        | (Thrown e, tr') => (Thrown e, tr')
        | (Exited c, tr') => (Exited c, tr')
        end.
Definition emit (e : Event) : M unit := λ tr, (Normal (), tr ++ [e]).
Definition throw {A} (err : string) : M A := λ tr, (Thrown err, tr).
Definition processExit {A} (code : Z) : M A := λ tr, (Exited code, tr).
(** try { body } catch (error) { handler } *)
Definition tryCatch {A} (body : M A) (handler : string → M A) : M A :=
  λ tr, match body tr with
        | (Thrown e, tr') => handler e tr'
        | r => r
        end.

Notation "m1 ;; m2" := (bind m1 (λ _, m2))
  (at level 100, m2 at level 200, right associativity).

(** What becomes of [app.listen(PORT, callback)]. The call either
    throws at once (a port out of range), or returns; once it has
    returned, either the callback is run, or the server emits an 'error'
    event (the port is taken) that has no listener: the callback is then
    not run and the process dies of the unhandled event. A framework
    version that hands the error to the callback instead falls under
    [ListenCallback]. *)
Inductive ListenOutcome :=
| ListenThrows (error : string)
| ListenCallback
| ListenErrorEvent (error : string).

(** The environment the process runs in. [processEnv] is the inherited
    environment, [dotenvFile] what [dotenv.config()] reads from [.env]
    (it never overrides a variable that is already set); [mongoRejects]
    gives the error with which [mongoose.connect] rejects, [None] when
    it resolves, and [listenOutcome] what becomes of [app.listen]. *)
Record World := {
  processEnv : gmap string string;
  dotenvFile : gmap string string;
  mongoRejects : string → option string;
  listenOutcome : PortValue → ListenOutcome
}.

(** The error [app.listen] throws synchronously, [None] when it
    returns. *)
Definition listenThrows (w : World) (port : PortValue) : option string :=
  match listenOutcome w port with
  | ListenThrows error => Some error
  | _ => None
  end.

(** [process.env] once [dotenv.config()] has run. *)
Definition envAfterDotenv (w : World) : gmap string string :=
  processEnv w ∪ dotenvFile w.

(** JavaScript truthiness of [process.env[name]]: a string that is not
    empty. *)
Definition truthy (v : option string) : bool :=
  match v with
  | Some (String _ _) => true
  | _ => false
  end.

Definition requiredEnvVars : list string := ["DATABASE_URL"; "PORT"].

(** for (const varName of requiredEnvVars)
      if (!process.env[varName]) throw new Error(...) *)
Fixpoint validateEnv (env : gmap string string) (vars : list string) : M unit :=
  match vars with
  | [] => ret ()
  | varName :: rest =>
      if truthy (env !! varName)
      then validateEnv env rest
      else throw ("Environment variable " +:+ varName +:+ " is not set.")
  end.

(** const PORT = process.env.PORT || 3001 *)
Definition PORT (env : gmap string string) : PortValue :=
  match env !! "PORT" with
  | Some (String c s) => PortString (String c s)
  | _ => PortNumber 3001
  end.

(** const NODE_ENV = process.env.NODE_ENV || "development" *)
Definition NODE_ENV (env : gmap string string) : string :=
  match env !! "NODE_ENV" with
  | Some (String c s) => String c s
  | _ => "development"
  end.

Definition API_BASE_PATH : string := "/api/v1".

(** The fallback of [MONGODB_URI]; the credentials of the literal in the
    source are left out. *)
Definition fallbackMongoUri : string :=
  "mongodb+srv://cluster0.znbgmwt.mongodb.net/ai-therapy".

(** const MONGODB_URI = process.env.MONGODB_URI || "mongodb+srv://..."
    evaluated when [./utils/db] is imported, before [dotenv.config()]. *)
Definition MONGODB_URI (w : World) : string :=
  match processEnv w !! "MONGODB_URI" with
  | Some (String c s) => String c s
  | _ => fallbackMongoUri
  end.

Definition mongooseConnect (w : World) (uri : string) : M unit :=
  emit (EvMongooseConnect uri) ;;
  match mongoRejects w uri with
  | None => ret ()
  | Some error => throw error
  end.

Definition connectDB (w : World) : M unit :=
  tryCatch
    (mongooseConnect w (MONGODB_URI w) ;;
     emit (EvLogInfo "Connected to MongoDB Atlas"))
    (λ error,
       emit (EvLogError "MongoDB connection error:" error) ;;
       processExit 1).

Definition portText (p : PortValue) : string :=
  match p with
  | PortString s => s
  | PortNumber n => pretty n
  end.

(** The call [app.listen(PORT, callback)] itself: it returns, or
    throws, before the callback can run. *)
Definition appListen (w : World) (port : PortValue) : M unit :=
  emit (EvListen port) ;;
  match listenThrows w port with
  | None => ret ()
  | Some error => throw error
  end.

(** The callback passed to [app.listen]. *)
Definition listenCallback (port : PortValue) (nodeEnv : string) : M unit :=
  emit (EvLogInfo ("Server is running in " +:+ nodeEnv +:+ " mode on port "
                   +:+ portText port)) ;;
  emit (EvLogInfo ("Inngest UI available at http://localhost:"
                   +:+ portText port +:+ "/api/inngest")).

(** What the event loop does once [app.listen] has returned and
    [startServer] is through: it runs the callback, or the 'error'
    event, which no [try] surrounds, ends the process with that error. *)
Definition listenSettles (w : World) (port : PortValue) (nodeEnv : string) : M unit :=
  match listenOutcome w port with
  | ListenCallback => listenCallback port nodeEnv
  | ListenErrorEvent error => throw error
  | ListenThrows _ => ret ()
  end.

Definition startServer (w : World) (port : PortValue) (nodeEnv : string) : M unit :=
  tryCatch
    (connectDB w ;;
     emit (EvLogInfo "MongoDB connected successfully.") ;;
     appListen w port)
    (λ error,
       emit (EvLogError "Failed to start server:" error) ;;
       processExit 1).

(** The module body of the server, top to bottom, and then what the
    event loop does with the pending [app.listen]. *)
Definition main (w : World) : M unit :=
  emit EvDotenvConfig ;;
  let env := envAfterDotenv w in
  validateEnv env requiredEnvVars ;;
  emit EvCreateApp ;;
  let port := PORT env in
  let nodeEnv := NODE_ENV env in
  emit (EvUseCors (if String.eqb nodeEnv "production"
                   then env !! "FRONTEND_URL" else Some "*")) ;;
  emit (EvUse "helmet") ;;
  emit (EvUse "express.json") ;;
  emit (EvUseMorgan (if String.eqb nodeEnv "production" then "combined" else "dev")) ;;
  emit (EvUse "/health") ;;
  emit (EvUse (API_BASE_PATH +:+ "/auth")) ;;
  emit (EvUse (API_BASE_PATH +:+ "/chat")) ;;
  emit (EvUse (API_BASE_PATH +:+ "/mood")) ;;
  emit (EvUse (API_BASE_PATH +:+ "/activity")) ;;
  emit (EvUse (API_BASE_PATH +:+ "/inngest")) ;;
  emit (EvUse "errorHandler") ;;
  startServer w port nodeEnv ;;
  listenSettles w port nodeEnv.

Definition run (w : World) : Completion unit * list Event := main w [].

Definition isListen (e : Event) : bool :=
  match e with EvListen _ => true | _ => false end.
Definition isCreateApp (e : Event) : bool :=
  match e with EvCreateApp => true | _ => false end.

(** The server serves requests once [app.listen] has been reached. *)
Definition serving (tr : list Event) : bool := existsb isListen tr.
Definition appCreated (tr : list Event) : bool := existsb isCreateApp tr.

(** The start-up validation passed: no required variable is falsy. *)
Definition validationPassed (env : gmap string string) : bool :=
  forallb (λ v, truthy (env !! v)) requiredEnvVars.

End Server.

(** ** The Inngest adapter for Express: request accessors *)

Module Adapter.

(** The JavaScript values a header or a parsed query parameter can hold.
    Node delivers a header as a string or an array of strings; the query
    parser of Express delivers strings, arrays and nested objects. *)
#[local] Unset Elimination Schemes.
Inductive JsValue :=
| JsUndefined
| JsString (s : string)
| JsObject (fields : list (string * JsValue))
| JsArray (items : list JsValue).
#[local] Set Elimination Schemes.

(** The parts of the Express request the two accessors read. *)
Record Request := {
  req_headers : gmap string JsValue;
  req_query : gmap string JsValue
}.

(** [o[key]]: a property that is absent reads as [undefined]. *)
Definition getProp (o : gmap string JsValue) (key : string) : JsValue :=
  default JsUndefined (o !! key).

(** [Array.isArray(v)] *)
Definition isArray (v : JsValue) : bool :=
  match v with
  | JsArray _ => true
  | _ => false
  end.

(** [items[0]]; [undefined] on the empty array. *)
Definition first (items : list JsValue) : JsValue :=
  match items with
  | [] => JsUndefined
  | v :: _ => v
  end.

(** headers: (key) => {
      const header = req.headers[key];
      return Array.isArray(header) ? header[0] : header; } *)
Definition headers (req : Request) (key : string) : JsValue :=
  let header := getProp (req_headers req) key in
  match header with
  | JsArray items => first items
  | _ => header
  end.

(** queryString: (key) => {
      const qs = req.query[key];
      return Array.isArray(qs) ? qs[0] : qs; } *)
Definition queryString (req : Request) (key : string) : JsValue :=
  let qs := getProp (req_query req) key in
  match qs with
  | JsArray items => first items
  | _ => qs
  end.

(** A value whose array elements, if it is an array, are not arrays
    themselves. *)
Definition flat (v : JsValue) : bool :=
  match v with
  | JsArray items => forallb (λ x, negb (isArray x)) items
  | _ => true
  end.

End Adapter.

(** ** The stress-signal detector *)

Module Detector.
Import JsString.

(** The keyword list of [detectStressSignals] in the README. The body of
    that function declares this list and ends on the comment "Advanced
    pattern matching and intervention logic": the sources contain no
    matching, scoring or escalation code. *)
Definition stressKeywords : list string :=
  ["stress"; "anxiety"; "worried"; "panic"; "overwhelmed"; "nervous";
   "tense"; "pressure"].

(** *** Data model *)

(** Modelled from the spec: the data model of section 3, which the
    sources do not declare. The tier is an ordered enumeration
    NONE < LOW < MODERATE < HIGH < CRITICAL. *)
Inductive RiskTier := NONE | LOW | MODERATE | HIGH | CRITICAL.


(** Modelled from the spec: the actions of an escalation directive
    (section 3); the sources have no such enumeration. *)
Inductive Action :=
  NO_ACTION | SUGGEST_RESOURCES | NOTIFY_COUNSELOR | TRIGGER_CRISIS_PROTOCOL.

(** Modelled from the spec: SignalDefinition {id, literal, category,
    weight} of section 3; a weight is a non-negative severity. *)
Record SignalDefinition := {
  sd_id : nat;
  sd_literal : string;
  sd_category : string;
  sd_weight : N
}.

(** Modelled from the spec: SignalMatch {signalId, category, weight,
    position} of section 3. *)
Record SignalMatch := {
  sm_signalId : nat;
  sm_category : string;
  sm_weight : N;
  sm_position : nat
}.

(** Modelled from the spec: RiskAssessment {score, tier,
    matchedCategories} of section 3; the set of categories is kept
    without duplicates, in order of first occurrence. *)
Record RiskAssessment := {
  score : N;
  tier : RiskTier;
  matchedCategories : list string
}.

(** Modelled from the spec: EscalationDirective {tier, action, message}
    of section 3. *)
Record EscalationDirective := {
  ed_tier : RiskTier;
  action : Action;
  message : string
}.

(** Modelled from the spec: the tier thresholds of section 4.2, each
    the least score of its tier. They are configuration. *)
Record Thresholds := {
  lowFrom : N;
  moderateFrom : N;
  highFrom : N;
  criticalFrom : N
}.

(** Modelled from the spec: the cut points section 4.2 documents:
    0 is NONE, 1-2 LOW, 3-5 MODERATE, 6-9 HIGH, 10 and more CRITICAL. *)
Definition documentedThresholds : Thresholds :=
  {| lowFrom := 1; moderateFrom := 3; highFrom := 6; criticalFrom := 10 |}.

(** Modelled from the spec: the configuration surface of section 6, the
    lexicon and the thresholds, with the message template of a
    directive and the normalisation section 4.1 requires before any
    comparison: [normalize] stands for the Unicode normalisation and
    case folding the platform provides; it is applied to the text and
    to every literal. *)
Record Config := {
  normalize : string → string;
  lexicon : list SignalDefinition;
  thresholds : Thresholds;
  template : Action → string
}.

(** A configuration the system accepts at start-up: the thresholds are
    positive and ordered. *)
Definition validThresholds (th : Thresholds) : Prop :=
  (0 < lowFrom th ∧ lowFrom th ≤ moderateFrom th
   ∧ moderateFrom th ≤ highFrom th ∧ highFrom th ≤ criticalFrom th)%N.

(** *** Signal Matcher (section 4.1) *)

(** A character of a word: a letter, a digit or the underscore. *)
Definition isWordChar (c : ascii) : bool :=
  let n := N_of_ascii c in
  (((48 <=? n) && (n <=? 57)) || ((65 <=? n) && (n <=? 90))
   || ((97 <=? n) && (n <=? 122)) || (n =? 95))%N.

Definition mkMatch (d : SignalDefinition) (pos : nat) : SignalMatch :=
  {| sm_signalId := sd_id d; sm_category := sd_category d;
     sm_weight := sd_weight d; sm_position := pos |}.

(** The signals whose normalised literal starts at the head of [rest]. *)
Definition matchesAt (norm : string → string) (lex : list SignalDefinition)
           (pos : nat) (rest : string) : list SignalMatch :=
  flat_map (λ d, if startsWith rest (norm (sd_literal d))
                 then [mkMatch d pos] else []) lex.

(** Modelled from the spec: the scan of the Signal Matcher, which the
    sources do not implement. A literal matches where it begins at a
    word boundary of the text (the character before is not a word
    character), so that "stressed" matches "stress" while a literal
    inside another word does not match. [prevIsWord] tells whether the
    character before [pos] is a word character. *)
Fixpoint scan (norm : string → string) (lex : list SignalDefinition)
         (pos : nat) (prevIsWord : bool) (s : string) : list SignalMatch :=
  match s with
  | EmptyString => []
  | String c s' =>
      (if prevIsWord then [] else matchesAt norm lex pos s)
      ++ scan norm lex (S pos) (isWordChar c) s'
  end.

(** Modelled from the spec: the Signal Matcher of section 4.1: the text
    is normalised, then scanned; one match per occurrence, ordered by
    position (an offset of the normalised text). *)
Definition signalMatcher (norm : string → string) (lex : list SignalDefinition)
           (text : string) : list SignalMatch :=
  scan norm lex 0 false (norm text).

(** Whether [s], read after a character that is a word character or not
    ([prev]), ends in a word character: the word boundary a literal
    needs is a prefix of the text that does not. *)
Fixpoint endsInWord (prev : bool) (s : string) : bool :=
  match s with
  | EmptyString => prev
  | String c s' => endsInWord (isWordChar c) s'
  end.

(** *** Risk Scorer (section 4.2) *)

Definition categoriesOf (ms : list SignalMatch) : list string :=
  remove_dups (sm_category <$> ms).

Definition inCategory (c : string) (ms : list SignalMatch) : list SignalMatch :=
  List.filter (λ m, String.eqb (sm_category m) c) ms.

(** The weight of a matched category: the largest weight matched in it. *)
Definition categoryWeight (ms : list SignalMatch) : N :=
  foldr (λ m acc, N.max (sm_weight m) acc) 0%N ms.

(** Modelled from the spec: the repetition dampening of section 4.2,
    "first occurrence full weight, subsequent occurrences contribute a
    fraction": the first of [n] occurrences counts [w], each further one
    half of the one before. *)
Fixpoint dampened (w : N) (n : nat) : N :=
  match n with
  | O => 0
  | S n' => w + dampened (w / 2) n'
  end.

Definition categoryScore (ms : list SignalMatch) (c : string) : N :=
  let hits := inCategory c ms in
  dampened (categoryWeight hits) (length hits).

Definition sumN (l : list N) : N := foldr N.add 0%N l.

(** Modelled from the spec: the aggregation policy of section 4.2, the
    sum over the unique matched categories of the dampened category
    weight. *)
Definition totalScore (ms : list SignalMatch) : N :=
  sumN (categoryScore ms <$> categoriesOf ms).

(** Modelled from the spec: the tier as a function of the score through
    the thresholds (section 3, invariant; section 4.2). *)
Definition tierOf (th : Thresholds) (s : N) : RiskTier :=
  if (criticalFrom th <=? s)%N then CRITICAL
  else if (highFrom th <=? s)%N then HIGH
  else if (moderateFrom th <=? s)%N then MODERATE
  else if (lowFrom th <=? s)%N then LOW
  else NONE.

(** Modelled from the spec: the Risk Scorer of section 4.2. *)
Definition riskScorer (th : Thresholds) (ms : list SignalMatch) : RiskAssessment :=
  {| score := totalScore ms;
     tier := tierOf th (totalScore ms);
     matchedCategories := categoriesOf ms |}.

(** Modelled from the spec: [assess(text) -> RiskAssessment] of
    section 6, absent from the sources: the matcher followed by the
    scorer. *)
Definition assess (cfg : Config) (text : string) : RiskAssessment :=
  riskScorer (thresholds cfg)
             (signalMatcher (normalize cfg) (lexicon cfg) text).

(** *** Escalation Policy (section 4.3) *)

(** Modelled from the spec: the action of a tier. Sections 4.3 and 8
    fix NONE, MODERATE and CRITICAL; LOW and HIGH take the softer
    action next to them. *)
Definition actionFor (t : RiskTier) : Action :=
  match t with
  | NONE => NO_ACTION
  | LOW => SUGGEST_RESOURCES
  | MODERATE => SUGGEST_RESOURCES
  | HIGH => NOTIFY_COUNSELOR
  | CRITICAL => TRIGGER_CRISIS_PROTOCOL
  end.

(** Modelled from the spec: [escalate(assessment) -> EscalationDirective]
    of section 6, absent from the sources. *)
Definition escalate (cfg : Config) (ra : RiskAssessment) : EscalationDirective :=
  {| ed_tier := tier ra;
     action := actionFor (tier ra);
     message := template cfg (actionFor (tier ra)) |}.

(** *** The lexicon of the README *)

(** The keywords of the README as signal definitions; the README gives
    neither weights nor categories, so both are parameters. *)
Definition signalOf (weightOf : string → N) (categoryOf : string → string)
           (i : nat) (kw : string) : SignalDefinition :=
  {| sd_id := i; sd_literal := kw;
     sd_category := categoryOf kw; sd_weight := weightOf kw |}.

Definition stressLexicon (weightOf : string → N) (categoryOf : string → string)
  : list SignalDefinition :=
  imap (signalOf weightOf categoryOf) stressKeywords.

(** *** A normalisation for Latin-1 text *)

(** The base letter, in lower case, of the character U+00C0 + [n] of the
    Latin-1 supplement, when it is a letter with a diacritic. *)
Definition latinBase (n : N) : option ascii :=
  let k := (if 32 <=? n then n - 32 else n)%N in
  if (k <=? 5)%N then Some "a"%char
  else if (k =? 7)%N then Some "c"%char
  else if ((8 <=? k) && (k <=? 11))%N then Some "e"%char
  else if ((12 <=? k) && (k <=? 15))%N then Some "i"%char
  else if (k =? 17)%N then Some "n"%char
  else if ((18 <=? k) && (k <=? 22))%N then Some "o"%char
  else if ((25 <=? k) && (k <=? 28))%N then Some "u"%char
  else if ((k =? 29) || (n =? 63))%N then Some "y"%char
  else None.

(** An instance of the normalisation, for UTF-8 text: the letters of
    the Latin-1 supplement (the two bytes 195, 128 + n) lose their
    diacritic and their case, the other upper-case letters of that block
    are folded, combining marks U+0300 to U+033F (the two bytes 204, _)
    are dropped, and ASCII is folded by [toLowerCase]. *)
Fixpoint latinNormalize (s : string) : string :=
  match s with
  | EmptyString => EmptyString
  | String c s' =>
      let n := N_of_ascii c in
      match s' with
      | String c2 s'' =>
          let m := N_of_ascii c2 in
          if ((n =? 195) && (128 <=? m) && (m <=? 191))%N then
            match latinBase (m - 128) with
            | Some base => String base (latinNormalize s'')
            | None =>
                String c (String (if ((m <=? 158) && negb (m =? 151))%N
                                  then ascii_of_N (m + 32) else c2)
                                 (latinNormalize s''))
            end
          else if ((n =? 204) && (128 <=? m) && (m <=? 191))%N then
            latinNormalize s''
          else String (lowerChar c) (latinNormalize s')
      | EmptyString => String (lowerChar c) EmptyString
      end
  end.

(** A text of ASCII characters only. *)
Fixpoint isAscii (s : string) : bool :=
  match s with
  | EmptyString => true
  | String c s' => (N_of_ascii c <? 128)%N && isAscii s'
  end.

Definition stressConfig (weightOf : string → N) (categoryOf : string → string)
           (tpl : Action → string) : Config :=
  {| normalize := latinNormalize;
     lexicon := stressLexicon weightOf categoryOf;
     thresholds := documentedThresholds;
     template := tpl |}.

(** A CRITICAL-weighted term: its weight alone reaches the CRITICAL
    threshold. *)
Definition criticalTerm (th : Thresholds) (d : SignalDefinition) : Prop :=
  (criticalFrom th ≤ sd_weight d)%N.

(** The identifiers of a lexicon name its definitions. *)
Definition uniqueIds (lex : list SignalDefinition) : Prop :=
  NoDup (sd_id <$> lex).


End Detector.

(** ** The traces of the start-up script *)

Module ServerTrace.
Import Server.

(** What the script has done when it calls [startServer()]: the
    environment is loaded, the app created and every middleware and
    route mounted. *)
Definition setupEvents (env : gmap string string) : list Event :=
  [ EvDotenvConfig;
    EvCreateApp;
    EvUseCors (if String.eqb (NODE_ENV env) "production"
               then env !! "FRONTEND_URL" else Some "*");
    EvUse "helmet";
    EvUse "express.json";
    EvUseMorgan (if String.eqb (NODE_ENV env) "production" then "combined" else "dev");
    EvUse "/health";
    EvUse "/api/v1/auth";
    EvUse "/api/v1/chat";
    EvUse "/api/v1/mood";
    EvUse "/api/v1/activity";
    EvUse "/api/v1/inngest";
    EvUse "errorHandler" ].

(** What a successful [connectDB()] and the line after it add. *)
Definition connectedEvents (w : World) : list Event :=
  [ EvMongooseConnect (MONGODB_URI w);
    EvLogInfo "Connected to MongoDB Atlas";
    EvLogInfo "MongoDB connected successfully." ].

(** What the callback of [app.listen] logs. *)
Definition listeningEvents (port : PortValue) (nodeEnv : string) : list Event :=
  [ EvLogInfo ("Server is running in " +:+ nodeEnv +:+ " mode on port "
               +:+ portText port);
    EvLogInfo ("Inngest UI available at http://localhost:"
               +:+ portText port +:+ "/api/inngest") ].

(** The same world with one variable of the inherited environment set. *)
Definition setenv (name value : string) (w : World) : World :=
  {| processEnv := <[name := value]> (processEnv w);
     dotenvFile := dotenvFile w;
     mongoRejects := mongoRejects w;
     listenOutcome := listenOutcome w |}.

(** The text of the error the validation loop throws for [varName]. *)
Definition notSet (varName : string) : string :=
  "Environment variable " +:+ varName +:+ " is not set.".

(** [app.use] and [app.get]: the events that add a middleware or a
    route to the app. *)
Definition isMount (e : Event) : bool :=
  match e with
  | EvUseCors _ | EvUse _ | EvUseMorgan _ => true
  | _ => false
  end.

Definition isErrorHandlerMount (e : Event) : bool :=
  match e with
  | EvUse mount => String.eqb mount "errorHandler"
  | _ => false
  end.

(** What follows the first event that satisfies [p]. *)
Fixpoint eventsAfter (p : Event → bool) (tr : list Event) : list Event :=
  match tr with
  | [] => []
  | e :: tr' => if p e then tr' else eventsAfter p tr'
  end.

End ServerTrace.

(** ** next.config: the [webpack] hook *)

Module NextWebpack.

(** The value of an entry of [resolve.alias]: [false] (ignore the
    module), a path or a list of paths. *)
Inductive AliasTarget :=
| AliasFalse
| AliasPath (p : string)
| AliasPaths (ps : list string).

(** The webpack configuration as far as the hook can tell its parts
    apart: [config.resolve.alias] ([None] when undefined), the other
    fields of [config.resolve] and the other fields of [config]. *)
Record WebpackConfig := {
  resolveAlias : option (gmap string AliasTarget);
  resolveOther : gmap string Adapter.JsValue;
  configOther : gmap string Adapter.JsValue
}.

(** The second argument, { isServer, dev }. *)
Record WebpackContext := {
  isServer : bool;
  dev : bool
}.

(** { ...alias }: the spread of [undefined] adds no property. *)
Definition spread (alias : option (gmap string AliasTarget)) : gmap string AliasTarget :=
  default ∅ alias.

(** webpack: (config, { isServer, dev }) => {
      config.resolve.alias = {
        ...config.resolve.alias, sharp$: false, canvas$: false };
      return config; } *)
Definition webpack (config : WebpackConfig) (ctx : WebpackContext) : WebpackConfig :=
  {| resolveAlias :=
       Some (<["canvas$" := AliasFalse]>
               (<["sharp$" := AliasFalse]> (spread (resolveAlias config))));
     resolveOther := resolveOther config;
     configOther := configOther config |}.

End NextWebpack.

(** ** The Inngest adapter for Express: [serve] and [url] *)

Module AdapterServe.
Import JsString.

(** The value of an option passed to [serve]: plain data or a function,
    told apart by a tag. *)
Inductive OptionValue :=
| Plain (v : Adapter.JsValue)
| Closure (tag : string).

(** exports.frameworkName = "express" *)
Definition frameworkName : string := "express".

(** The [handler: (req, res) => ...] closure [serve] builds. *)
Definition expressHandler : OptionValue := Closure "inngest/express handler".

(** [Object.assign(target, source)]: the properties of [source] replace
    those of [target]; a [null] or [undefined] source adds nothing. *)
Definition objectAssign (target : gmap string OptionValue)
           (source : option (gmap string OptionValue)) : gmap string OptionValue :=
  match source with
  | Some src => src ∪ target
  | None => target
  end.

(** The options [serve] hands to [InngestCommHandler]:
    Object.assign(Object.assign({ frameworkName }, options), { handler }) *)
Definition commHandlerOptions (options : option (gmap string OptionValue))
  : gmap string OptionValue :=
  objectAssign
    (objectAssign {[ "frameworkName" := Plain (Adapter.JsString frameworkName) ]} options)
    (Some {[ "handler" := expressHandler ]}).

(** [a || b] on values that are a string or [undefined]. *)
Definition orElse (a b : option string) : option string :=
  match a with
  | Some (String c s) => Some (String c s)
  | _ => b
  end.

(** The second argument of [new URL] in [url()]:
      const hostname = req.headers["host"] || options?.serveHost;
      const protocol = hostname?.includes("://")
        ? "" : `${req.protocol || "https"}://`;
      ... `${protocol}${hostname || ""}`
    [host] is the host header, [serveHost] the option and [protocol]
    [req.protocol], each a string or [undefined]. *)
Definition urlBase (host serveHost protocol : option string) : string :=
  let hostname := orElse host serveHost in
  let hasScheme := match hostname with
                   | Some h => includes h "://"
                   | None => false
                   end in
  let prefix := if hasScheme then EmptyString
                else default "https" (orElse protocol (Some "https")) +:+ "://" in
  prefix +:+ default EmptyString (orElse hostname (Some EmptyString)).

(** The first argument of [new URL] in [url()]:
      req.originalUrl || req.url || "" *)
Definition urlInput (originalUrl url : option string) : string :=
  default EmptyString (orElse (orElse originalUrl url) (Some EmptyString)).

End AdapterServe.

(** ** Sample inputs *)

Module Samples.

Definition worldWithoutPort : Server.World :=
  {| Server.processEnv := {[ "DATABASE_URL" := "mongodb://localhost/db" ]};
     Server.dotenvFile := ∅;
     Server.mongoRejects := λ _, None;
     Server.listenOutcome := λ _, Server.ListenCallback |}.

Definition worldMongoDown : Server.World :=
  {| Server.processEnv := {[ "DATABASE_URL" := "mongodb://localhost/db" ]};
     Server.dotenvFile := {[ "PORT" := "3001" ]};
     Server.mongoRejects := λ _, Some "MongoNetworkError: connection timed out";
     Server.listenOutcome := λ _, Server.ListenCallback |}.

(** GET /api/v1/inngest?probe[0][0]=b as the extended query parser of
    Express delivers it, with a header Node delivers as an array. *)
Definition nestedQueryRequest : Adapter.Request :=
  {| Adapter.req_headers :=
       {[ "set-cookie" :=
            Adapter.JsArray [Adapter.JsString "a=1"; Adapter.JsString "b=2"] ]};
     Adapter.req_query :=
       {[ "probe" := Adapter.JsArray [Adapter.JsArray [Adapter.JsString "b"]] ]} |}.

(** A configuration over the README keywords: "panic" carries a
    CRITICAL weight, "overwhelmed" a MODERATE one, the others are low. *)
Definition sampleWeight (kw : string) : N :=
  if String.eqb kw "panic" then 10%N
  else if String.eqb kw "overwhelmed" then 3%N
  else 1%N.

Definition sampleCategory (kw : string) : string :=
  if String.eqb kw "panic" then "panic" else "anxiety".

Definition sampleTemplate (a : Detector.Action) : string :=
  match a with
  | Detector.NO_ACTION => "No action needed."
  | Detector.SUGGEST_RESOURCES => "Here are some resources that may help."
  | Detector.NOTIFY_COUNSELOR => "A counselor has been notified."
  | Detector.TRIGGER_CRISIS_PROTOCOL => "Crisis protocol started."
  end.

Definition sampleConfig : Detector.Config :=
  Detector.stressConfig sampleWeight sampleCategory sampleTemplate.

(** The signals of "stress" and of "panic" in that configuration. *)
Definition stressSignal : Detector.SignalDefinition :=
  Detector.signalOf sampleWeight sampleCategory 0 "stress".

Definition panicSignal : Detector.SignalDefinition :=
  Detector.signalOf sampleWeight sampleCategory 3 "panic".



(** A complete environment with MongoDB reachable; [PORT] comes from the
    [.env] file. *)
Definition worldHealthy : Server.World :=
  {| Server.processEnv := {[ "DATABASE_URL" := "mongodb://localhost/db" ]};
     Server.dotenvFile := {[ "PORT" := "8080" ]};
     Server.mongoRejects := λ _, None;
     Server.listenOutcome := λ _, Server.ListenCallback |}.

(** The same, on a port that is already taken: [app.listen] returns and
    the server then emits 'error'. *)
Definition worldPortTaken : Server.World :=
  {| Server.processEnv := {[ "DATABASE_URL" := "mongodb://localhost/db" ]};
     Server.dotenvFile := {[ "PORT" := "8080" ]};
     Server.mongoRejects := λ _, None;
     Server.listenOutcome := λ _, Server.ListenErrorEvent "EADDRINUSE" |}.

(** [PORT] is exported, but empty. *)
Definition worldEmptyPort : Server.World :=
  {| Server.processEnv := {[ "DATABASE_URL" := "mongodb://localhost/db" ]}
                          ∪ {[ "PORT" := "" ]};
     Server.dotenvFile := {[ "PORT" := "8080" ]};
     Server.mongoRejects := λ _, None;
     Server.listenOutcome := λ _, Server.ListenCallback |}.

End Samples.

(** * Properties *)

Section JsStringFacts.
Import JsString.

Lemma startsWith_app (p post : string) : startsWith (p +:+ post) p = true.
Proof.
  induction p as [|a p IH]; simpl.
  - now destruct post.
  - now rewrite Ascii.eqb_refl.
Qed.

Lemma startsWith_inv (s p : string) :
  startsWith s p = true → ∃ post, s = p +:+ post.
Proof.
  revert s; induction p as [|a p IH]; intros s H.
  - now exists s.
  - destruct s as [|b s]; simpl in H; [discriminate|].
    destruct (Ascii.eqb_spec a b) as [->|]; [|discriminate].
    destruct (IH _ H) as [post ->]. now exists post.
Qed.

(** [includes] is substring containment. *)
Lemma includes_spec (s sub : string) :
  includes s sub = true ↔ ∃ pre post, s = pre +:+ sub +:+ post.
Proof.
  split.
  - induction s as [|c s IH]; intros H.
    + change (startsWith EmptyString sub || false = true) in H.
      apply orb_true_iff in H as [H|H]; [|discriminate].
      destruct (startsWith_inv _ _ H) as [post E]. now exists EmptyString, post.
    + change (startsWith (String c s) sub || includes s sub = true) in H.
      apply orb_true_iff in H as [H|H].
      * destruct (startsWith_inv _ _ H) as [post E]. now exists EmptyString, post.
      * destruct (IH H) as (pre & post & ->). now exists (String c pre), post.
  - intros (pre & post & ->). induction pre as [|c pre IH].
    + change (EmptyString +:+ sub +:+ post) with (sub +:+ post).
      pose proof (startsWith_app sub post) as E.
      destruct (sub +:+ post);
        [change (startsWith EmptyString sub || false = true)
        |match goal with |- includes (String ?a ?t) _ = _ =>
           change (startsWith (String a t) sub || includes t sub = true) end];
        now rewrite E.
    + change (startsWith (String c (pre +:+ sub +:+ post)) sub
              || includes (pre +:+ sub +:+ post) sub = true).
      rewrite IH. apply orb_true_r.
Qed.

Lemma append_length (a b : string) :
  String.length (a +:+ b) = (String.length a + String.length b)%nat.
Proof.
  induction a as [|x a IH]; [reflexivity|].
  change (S (String.length (a +:+ b)) = S (String.length a + String.length b)).
  now rewrite IH.
Qed.

Lemma append_assoc (a b c : string) : (a +:+ b) +:+ c = a +:+ b +:+ c.
Proof.
  induction a as [|x a IH]; [reflexivity|].
  change (String x ((a +:+ b) +:+ c) = String x (a +:+ b +:+ c)). now f_equal.
Qed.

(** Two splits of one string at the same offset are the same split. *)
Lemma append_inj_length (a b a' b' : string) :
  a +:+ b = a' +:+ b' → String.length a = String.length a' → a = a' ∧ b = b'.
Proof.
  revert a'; induction a as [|x a IH]; intros [|y a'] E L; try discriminate L.
  - now split.
  - change (String x (a +:+ b) = String y (a' +:+ b')) in E.
    injection E as -> E. injection L as L.
    destruct (IH _ E L) as [-> ->]. now split.
Qed.

End JsStringFacts.

(** C9. The filter of [pageExtensions] removes nothing: no extension
    contains "spec", so the value is exactly ["tsx"; "ts"; "jsx"; "js"]. *)
Theorem pageExtensions_unfiltered :
  NextConfig.pageExtensions = ["tsx"; "ts"; "jsx"; "js"]
  ∧ Forall (fun ext => JsString.includes ext "spec" = false)
           ["tsx"; "ts"; "jsx"; "js"].
Proof.
  split; [reflexivity|].
  repeat constructor.
Qed.

(** ** Server start-up *)

Section ServerFacts.
Import Server.

Lemma truthy_Some (v : option string) :
  truthy v = true → ∃ c s, v = Some (String c s).
Proof. destruct v as [[|c s]|]; simpl; intros H; try discriminate; eauto. Qed.

Lemma truthy_None : truthy None = false.
Proof. reflexivity. Qed.

Lemma validationPassed_spec (env : gmap string string) :
  validationPassed env = true ↔
  truthy (env !! "DATABASE_URL") = true ∧ truthy (env !! "PORT") = true.
Proof.
  unfold validationPassed; simpl. rewrite !andb_true_iff. tauto.
Qed.

(** The validation loop throws exactly when the check of the
    configuration fails, and leaves the trace untouched. *)
Lemma validateEnv_passes env tr :
  validationPassed env = true →
  validateEnv env requiredEnvVars tr = (Normal (), tr).
Proof.
  intros [H1 H2]%validationPassed_spec. simpl. now rewrite H1, H2.
Qed.

Lemma validateEnv_throws env tr :
  validationPassed env = false →
  ∃ v, v ∈ requiredEnvVars ∧ truthy (env !! v) = false ∧
       validateEnv env requiredEnvVars tr
       = (Thrown ("Environment variable " +:+ v +:+ " is not set."), tr).
Proof.
  unfold validationPassed; simpl. intros H.
  destruct (truthy (env !! "DATABASE_URL")) eqn:H1.
  - destruct (truthy (env !! "PORT")) eqn:H2; [discriminate|].
    exists "PORT". repeat split; [set_solver|assumption].
  - exists "DATABASE_URL". repeat split; [set_solver|assumption].
Qed.

(** Equations of the script monad. *)
Lemma bind_emit {B} (e : Event) (k : unit → M B) tr :
  bind (emit e) k tr = k () (tr ++ [e]).
Proof. reflexivity. Qed.

Lemma bind_Normal {A B} (m : M A) (k : A → M B) tr a tr' :
  m tr = (Normal a, tr') → bind m k tr = k a tr'.
Proof. unfold bind. now intros ->. Qed.

Lemma bind_Thrown {A B} (m : M A) (k : A → M B) tr e tr' :
  m tr = (Thrown e, tr') → bind m k tr = (Thrown e, tr').
Proof. unfold bind. now intros ->. Qed.

Lemma bind_Exited {A B} (m : M A) (k : A → M B) tr c tr' :
  m tr = (Exited c, tr') → bind m k tr = (Exited c, tr').
Proof. unfold bind. now intros ->. Qed.

Lemma tryCatch_Exited {A} (m : M A) h tr c tr' :
  m tr = (Exited c, tr') → tryCatch m h tr = (Exited c, tr').
Proof. unfold tryCatch. now intros ->. Qed.

(** What the script does when the validation fails: it stops right
    after [dotenv.config()]. *)
Lemma run_validation_failed (w : World) :
  validationPassed (envAfterDotenv w) = false →
  ∃ v, v ∈ requiredEnvVars ∧
       run w = (Thrown ("Environment variable " +:+ v +:+ " is not set."),
                [EvDotenvConfig]).
Proof.
  intros H. destruct (validateEnv_throws _ [EvDotenvConfig] H) as (v & Hv & _ & E).
  exists v; split; [assumption|].
  unfold run, main. rewrite bind_emit. now apply bind_Thrown.
Qed.

(** [connectDB] when MongoDB cannot be reached: it logs the error and
    ends the process with code 1. *)
Lemma connectDB_down (w : World) (error : string) tr :
  mongoRejects w (MONGODB_URI w) = Some error →
  connectDB w tr
  = (Exited 1, tr ++ [EvMongooseConnect (MONGODB_URI w)]
                  ++ [EvLogError "MongoDB connection error:" error]).
Proof.
  intros Hm.
  unfold connectDB, tryCatch, mongooseConnect, bind, emit, throw, processExit.
  rewrite Hm. now rewrite <- app_assoc.
Qed.

(** What the script does when the validation passes and MongoDB cannot
    be reached. *)
Lemma run_mongo_down (w : World) :
  validationPassed (envAfterDotenv w) = true →
  is_Some (mongoRejects w (MONGODB_URI w)) →
  ∃ tr, run w = (Exited 1, tr) ∧ serving tr = false ∧ appCreated tr = true.
Proof.
  intros Hv [error Hm]. eexists.
  unfold run, main. rewrite bind_emit.
  rewrite (bind_Normal _ _ _ _ _ (validateEnv_passes _ _ Hv)).
  rewrite !bind_emit. unfold startServer.
  split.
  - eapply bind_Exited, tryCatch_Exited, bind_Exited, connectDB_down, Hm.
  - split; reflexivity.
Qed.

Lemma unset_not_truthy (env : gmap string string) (v : string) :
  env !! v = None → truthy (env !! v) = false.
Proof. now intros ->. Qed.

Lemma unset_fails_validation (env : gmap string string) :
  env !! "DATABASE_URL" = None ∨ env !! "PORT" = None →
  validationPassed env = false.
Proof.
  intros H. destruct (validationPassed env) eqn:E; [|reflexivity].
  apply validationPassed_spec in E as [E1 E2].
  destruct H as [H|H]; rewrite H in *; discriminate.
Qed.

(** Whenever the script reaches [app.listen], the port it passes is the
    text of [process.env.PORT]. *)
Lemma run_success (w : World) :
  validationPassed (envAfterDotenv w) = true →
  mongoRejects w (MONGODB_URI w) = None →
  ∃ tr, (run w).2 = tr ∧ EvListen (PORT (envAfterDotenv w)) ∈ tr.
Proof.
  intros Hv Hm. eexists; split; [reflexivity|].
  unfold run, main. rewrite bind_emit.
  rewrite (bind_Normal _ _ _ _ _ (validateEnv_passes _ _ Hv)).
  rewrite !bind_emit.
  unfold startServer, connectDB, mongooseConnect, appListen, listenSettles,
    listenCallback, listenThrows, tryCatch, bind, emit, throw, processExit, ret.
  rewrite Hm.
  destruct (listenOutcome w (PORT (envAfterDotenv w))); simpl;
    rewrite !list_elem_of_In; simpl; tauto.
Qed.

End ServerFacts.

(** C7. Incomplete start-up configuration is fatal. If [DATABASE_URL] or
    [PORT] is unset, the script throws the "is not set" error before
    [express()] is called; if the validation passed and the MongoDB
    connection fails, the process exits with code 1. In every one of
    these cases [app.listen] is never reached. *)
Theorem startup_refuses_incomplete_configuration (w : Server.World) :
  let env := Server.envAfterDotenv w in
  (env !! "DATABASE_URL" = None ∨ env !! "PORT" = None
   ∨ is_Some (Server.mongoRejects w (Server.MONGODB_URI w))) →
  Server.serving (Server.run w).2 = false
  ∧ (env !! "DATABASE_URL" = None ∨ env !! "PORT" = None →
     Server.appCreated (Server.run w).2 = false
     ∧ ∃ v, v ∈ Server.requiredEnvVars
            ∧ (Server.run w).1
              = Server.Thrown ("Environment variable " +:+ v +:+ " is not set."))
  ∧ (Server.validationPassed env = true →
     is_Some (Server.mongoRejects w (Server.MONGODB_URI w)) →
     (Server.run w).1 = Server.Exited 1).
Proof.
  intros env H.
  assert (Hthrow : Server.validationPassed env = false →
            Server.serving (Server.run w).2 = false
            ∧ Server.appCreated (Server.run w).2 = false
            ∧ ∃ v, v ∈ Server.requiredEnvVars
                ∧ (Server.run w).1
                  = Server.Thrown ("Environment variable " +:+ v +:+ " is not set.")).
  { intros Hf. destruct (run_validation_failed w Hf) as (v & Hv & E).
    rewrite E. repeat split; try reflexivity. now exists v. }
  assert (Hexit : Server.validationPassed env = true →
            is_Some (Server.mongoRejects w (Server.MONGODB_URI w)) →
            Server.serving (Server.run w).2 = false
            ∧ (Server.run w).1 = Server.Exited 1).
  { intros Hv Hm. destruct (run_mongo_down w Hv Hm) as (tr & E & Hs & _).
    rewrite E. now split. }
  split; [|split].
  - destruct (Server.validationPassed env) eqn:Hv.
    + destruct H as [H|[H|H]].
      * rewrite unset_fails_validation in Hv; [discriminate|now left].
      * rewrite unset_fails_validation in Hv; [discriminate|now right].
      * now apply Hexit.
    + now apply Hthrow.
  - intros Hu. apply unset_fails_validation in Hu. now apply Hthrow in Hu.
  - intros Hv Hm. now apply Hexit.
Qed.

Lemma startup_refuses_incomplete_configuration_witness :
  (Server.envAfterDotenv Samples.worldWithoutPort !! "PORT" = None
   ∧ (Server.run Samples.worldWithoutPort).1
     = Server.Thrown "Environment variable PORT is not set."
   ∧ Server.serving (Server.run Samples.worldWithoutPort).2 = false)
  ∧ (is_Some (Server.mongoRejects Samples.worldMongoDown
                (Server.MONGODB_URI Samples.worldMongoDown))
     ∧ (Server.run Samples.worldMongoDown).1 = Server.Exited 1
     ∧ Server.serving (Server.run Samples.worldMongoDown).2 = false).
Proof.
  split.
  - split; [reflexivity|]. split; [reflexivity|].
    pose proof (startup_refuses_incomplete_configuration Samples.worldWithoutPort) as H.
    destruct H as (Hs & _ & _); [right; left; reflexivity|exact Hs].
  - split; [eexists; reflexivity|].
    pose proof (startup_refuses_incomplete_configuration Samples.worldMongoDown) as H.
    destruct H as (Hs & _ & He); [right; right; eexists; reflexivity|].
    split; [apply He; [reflexivity|eexists; reflexivity]|exact Hs].
Defined.

(** C8. Once the start-up validation has passed, [PORT] is exactly the
    (non-empty) text of [process.env.PORT]; the fallback [3001] of
    [process.env.PORT || 3001] is not taken. *)
Theorem PORT_is_env_PORT (env : gmap string string) :
  Server.validationPassed env = true →
  ∃ s, env !! "PORT" = Some s ∧ s ≠ ""
       ∧ Server.PORT env = Server.PortString s
       ∧ Server.PORT env ≠ Server.PortNumber 3001.
Proof.
  intros [_ H]%validationPassed_spec.
  destruct (truthy_Some _ H) as (c & s & E).
  exists (String c s). unfold Server.PORT. rewrite E.
  repeat split; discriminate.
Qed.

Lemma PORT_is_env_PORT_witness :
  ∃ s, Server.envAfterDotenv Samples.worldMongoDown !! "PORT" = Some s
       ∧ s ≠ ""
       ∧ Server.PORT (Server.envAfterDotenv Samples.worldMongoDown) = Server.PortString s
       ∧ Server.PORT (Server.envAfterDotenv Samples.worldMongoDown) ≠ Server.PortNumber 3001.
Proof.
  apply (PORT_is_env_PORT (Server.envAfterDotenv Samples.worldMongoDown)).
  reflexivity.
Defined.

(** ** Request accessors of the Inngest adapter *)

Section AdapterFacts.
Import Adapter.

Lemma first_of_flat (items : list JsValue) :
  forallb (λ x, negb (isArray x)) items = true → isArray (first items) = false.
Proof.
  destruct items as [|v items]; simpl; [reflexivity|].
  intros [H _]%andb_true_iff. now apply negb_true_iff.
Qed.

(** The shape both accessors share: [Array.isArray(v) ? v[0] : v]. *)
Lemma unwrap_cases (v : JsValue) :
  let r := match v with JsArray items => first items | _ => v end in
  (∀ items, v = JsArray items → r = first items)
  ∧ (isArray v = false → r = v)
  ∧ (flat v = true → isArray r = false).
Proof.
  destruct v as [|s|fields|items]; simpl; repeat split;
    try congruence; try discriminate.
  apply first_of_flat.
Qed.

End AdapterFacts.

(** C10 (as amended). For every request and key, [headers(key)] and
    [queryString(key)] return the first element of the underlying value
    when it is an array ([undefined] for the empty array) and the value
    itself otherwise ([undefined] when the key is absent). The result is
    not an array whenever the elements of the underlying array are not
    arrays themselves, as for the headers Node delivers. *)
Theorem accessors_unwrap_one_level (req : Adapter.Request) (key : string) :
  let h := Adapter.getProp (Adapter.req_headers req) key in
  let q := Adapter.getProp (Adapter.req_query req) key in
  ((∀ items, h = Adapter.JsArray items → Adapter.headers req key = Adapter.first items)
   ∧ (Adapter.isArray h = false → Adapter.headers req key = h)
   ∧ (Adapter.flat h = true → Adapter.isArray (Adapter.headers req key) = false))
  ∧ ((∀ items, q = Adapter.JsArray items → Adapter.queryString req key = Adapter.first items)
     ∧ (Adapter.isArray q = false → Adapter.queryString req key = q)
     ∧ (Adapter.flat q = true → Adapter.isArray (Adapter.queryString req key) = false)).
Proof.
  intros h q. split.
  - exact (unwrap_cases h).
  - exact (unwrap_cases q).
Qed.

Lemma accessors_unwrap_one_level_witness :
  Adapter.headers Samples.nestedQueryRequest "set-cookie"
  = Adapter.JsString "a=1"
  ∧ Adapter.isArray (Adapter.headers Samples.nestedQueryRequest "set-cookie") = false
  ∧ Adapter.queryString Samples.nestedQueryRequest "absent" = Adapter.JsUndefined.
Proof.
  destruct (accessors_unwrap_one_level Samples.nestedQueryRequest "set-cookie")
    as [(Hfirst & _ & Hflat) _].
  destruct (accessors_unwrap_one_level Samples.nestedQueryRequest "absent")
    as [_ (_ & Hsame & _)].
  split; [exact (Hfirst _ eq_refl)|].
  split; [exact (Hflat eq_refl)|exact (Hsame eq_refl)].
Defined.

(** C10, as stated, fails: on a query parameter that is an array of
    arrays, [queryString] returns the inner array. *)
Lemma queryString_returns_an_array :
  Adapter.queryString Samples.nestedQueryRequest "probe"
  = Adapter.JsArray [Adapter.JsString "b"]
  ∧ ¬ (∀ (req : Adapter.Request) (key : string),
         Adapter.isArray (Adapter.headers req key) = false
         ∧ Adapter.isArray (Adapter.queryString req key) = false).
Proof.
  split; [reflexivity|].
  intros H. destruct (H Samples.nestedQueryRequest "probe") as [_ Hq].
  discriminate Hq.
Qed.

(** ** The stress-signal detector *)

Section DetectorFacts.
Import JsString Detector.
#[local] Open Scope N_scope.

(** *** Matcher *)

Lemma endsInWord_app (prev : bool) (a b : string) :
  endsInWord prev (a +:+ b) = endsInWord (endsInWord prev a) b.
Proof.
  revert prev; induction a as [|x a IH]; intros prev; [reflexivity|].
  change (endsInWord (isWordChar x) (a +:+ b)
          = endsInWord (endsInWord (isWordChar x) a) b). apply IH.
Qed.

Lemma includes_false_inv (c : ascii) (s lit : string) :
  includes (String c s) lit = false →
  startsWith (String c s) lit = false ∧ includes s lit = false.
Proof.
  change (includes (String c s) lit)
    with (startsWith (String c s) lit || includes s lit)%bool.
  apply orb_false_iff.
Qed.

Lemma matchesAt_nil (norm : string → string) (lex : list SignalDefinition)
      (pos : nat) (rest : string) :
  Forall (λ d, startsWith rest (norm (sd_literal d)) = false) lex →
  matchesAt norm lex pos rest = [].
Proof.
  unfold matchesAt. induction 1 as [|d lex Hd _ IH]; simpl; [reflexivity|].
  now rewrite Hd, IH.
Qed.

Lemma matchesAt_elem (norm : string → string) (lex : list SignalDefinition)
      (pos : nat) (rest : string) (m : SignalMatch) :
  m ∈ matchesAt norm lex pos rest
  ↔ ∃ d, d ∈ lex ∧ startsWith rest (norm (sd_literal d)) = true
         ∧ m = mkMatch d pos.
Proof.
  unfold matchesAt. induction lex as [|d lex IH]; simpl.
  - split; [intros H; inversion H|intros (d & H & _); inversion H].
  - rewrite elem_of_app, IH. split.
    + intros [H|(d' & Hd' & Hs & ->)].
      * destruct (startsWith rest (norm (sd_literal d))) eqn:E.
        -- apply list_elem_of_singleton in H as ->. exists d. split; [left|]. now split.
        -- inversion H.
      * exists d'. split; [now right|]. now split.
    + intros (d' & Hd' & Hs & ->). apply elem_of_cons in Hd' as [->|Hd'].
      * left. rewrite Hs. now left.
      * right. exists d'. now repeat split.
Qed.

(** A text in which no literal occurs, at any offset, has no match. *)
Lemma scan_no_occurrence (norm : string → string)
      (lex : list SignalDefinition) (s : string) :
  Forall (λ d, includes s (norm (sd_literal d)) = false) lex →
  ∀ pos prev, scan norm lex pos prev s = [].
Proof.
  induction s as [|c s IH]; intros H pos prev; [reflexivity|].
  cbn [scan]. rewrite IH.
  - rewrite app_nil_r. destruct prev; [reflexivity|].
    apply matchesAt_nil. eapply Forall_impl; [exact H|].
    intros d Hd. now apply includes_false_inv in Hd.
  - eapply Forall_impl; [exact H|].
    intros d Hd. now apply includes_false_inv in Hd.
Qed.

(** Soundness of the scan: every match stands for a literal of the
    lexicon that occurs in the text at the reported offset, after a
    prefix that does not end in a word character. *)
Lemma scan_sound (norm : string → string) (lex : list SignalDefinition)
      (s : string) (m : SignalMatch) :
  ∀ pos prev,
    m ∈ scan norm lex pos prev s →
    ∃ d pre post,
      d ∈ lex ∧ s = pre +:+ norm (sd_literal d) +:+ post
      ∧ endsInWord prev pre = false
      ∧ m = mkMatch d (pos + String.length pre).
Proof.
  induction s as [|c s IH]; intros pos prev H; [inversion H|].
  cbn [scan] in H. apply elem_of_app in H as [H|H].
  - destruct prev; [inversion H|].
    apply matchesAt_elem in H as (d & Hd & Hs & ->).
    destruct (startsWith_inv _ _ Hs) as [post E].
    exists d, EmptyString, post. repeat split; try assumption.
    now rewrite Nat.add_0_r.
  - destruct (IH _ _ H) as (d & pre & post & Hd & -> & Hb & ->).
    exists d, (String c pre), post. repeat split; try assumption.
    cbn [String.length]. now rewrite Nat.add_succ_r.
Qed.

(** Completeness of the scan: a literal of the lexicon that occurs in
    the text after a prefix that does not end in a word character is
    matched, at that offset. *)
Lemma scan_complete (norm : string → string) (lex : list SignalDefinition)
      (d : SignalDefinition) (pre post : string) :
  d ∈ lex → norm (sd_literal d) ≠ EmptyString →
  ∀ pos prev,
    endsInWord prev pre = false →
    mkMatch d (pos + String.length pre)
    ∈ scan norm lex pos prev (pre +:+ norm (sd_literal d) +:+ post).
Proof.
  intros Hd Hne. induction pre as [|c pre IH]; intros pos prev Hb.
  - change (EmptyString +:+ norm (sd_literal d) +:+ post)
      with (norm (sd_literal d) +:+ post).
    pose proof (startsWith_app (norm (sd_literal d)) post) as Hs.
    destruct (norm (sd_literal d) +:+ post) as [|c s] eqn:E.
    + destruct (norm (sd_literal d)); [now contradiction Hne|discriminate E].
    + cbn [scan]. apply elem_of_app. left.
      cbn [endsInWord] in Hb. rewrite Hb.
      apply matchesAt_elem. exists d. repeat split; try assumption.
      cbn [String.length]. now rewrite Nat.add_0_r.
  - change (String c pre +:+ norm (sd_literal d) +:+ post)
      with (String c (pre +:+ norm (sd_literal d) +:+ post)).
    cbn [scan]. apply elem_of_app. right.
    cbn [String.length]. rewrite Nat.add_succ_r.
    apply (IH (S pos)). exact Hb.
Qed.

(** The reported offsets do not go backwards. *)
Lemma scan_position (norm : string → string) (lex : list SignalDefinition)
      (s : string) (m : SignalMatch) (pos : nat) (prev : bool) :
  m ∈ scan norm lex pos prev s → (pos ≤ sm_position m)%nat.
Proof.
  intros H. destruct (scan_sound _ _ _ _ _ _ H) as (d & pre & post & _ & _ & _ & ->).
  cbn. lia.
Qed.

(** No match begins in the middle of a word. *)
Lemma signalMatcher_at_boundary (norm : string → string)
      (lex : list SignalDefinition) (text pre rest : string) (m : SignalMatch) :
  m ∈ signalMatcher norm lex text →
  norm text = pre +:+ rest →
  sm_position m = String.length pre →
  endsInWord false pre = false.
Proof.
  intros H E L. unfold signalMatcher in H.
  destruct (scan_sound _ _ _ _ _ _ H) as (d & pre' & post & _ & E' & Hb & ->).
  cbn in L. rewrite E' in E.
  destruct (append_inj_length _ _ _ _ E L) as [-> _]. exact Hb.
Qed.

(** In a lexicon with unique identifiers a match names its definition. *)
Lemma uniqueIds_inj (lex : list SignalDefinition) (d d' : SignalDefinition) :
  uniqueIds lex → d ∈ lex → d' ∈ lex → sd_id d = sd_id d' → d = d'.
Proof.
  unfold uniqueIds. induction lex as [|x lex IH]; intros Hn Hd Hd' E;
    [inversion Hd|].
  cbn [fmap list_fmap] in Hn. apply NoDup_cons in Hn as [Hx Hn].
  apply elem_of_cons in Hd as [->|Hd]; apply elem_of_cons in Hd' as [->|Hd'].
  - reflexivity.
  - exfalso. apply Hx. rewrite E. now apply list_elem_of_fmap_2.
  - exfalso. apply Hx. rewrite <- E. now apply list_elem_of_fmap_2.
  - now apply IH.
Qed.

(** *** Scorer *)

Lemma sumN_elem (x : N) (l : list N) : x ∈ l → x ≤ sumN l.
Proof.
  induction 1 as [x l|x y l _ IH]; simpl; lia.
Qed.

Lemma categoryWeight_elem (m : SignalMatch) (ms : list SignalMatch) :
  m ∈ ms → sm_weight m ≤ categoryWeight ms.
Proof.
  induction 1 as [m ms|m m' ms _ IH]; simpl; lia.
Qed.

Lemma dampened_first (w : N) (n : nat) : (0 < n)%nat → w ≤ dampened w n.
Proof. destruct n; [lia|]. simpl. lia. Qed.


Lemma inCategory_elem (m : SignalMatch) (ms : list SignalMatch) :
  m ∈ ms → m ∈ inCategory (sm_category m) ms.
Proof.
  unfold inCategory. rewrite !list_elem_of_In, filter_In.
  intros H; split; [assumption|]. apply String.eqb_refl.
Qed.

(** A match contributes at least its weight to the score. *)
Lemma totalScore_elem (m : SignalMatch) (ms : list SignalMatch) :
  m ∈ ms → sm_weight m ≤ totalScore ms.
Proof.
  intros Hm. unfold totalScore.
  transitivity (categoryScore ms (sm_category m)).
  - unfold categoryScore. pose proof (inCategory_elem _ _ Hm) as Hin.
    transitivity (categoryWeight (inCategory (sm_category m) ms)).
    + now apply categoryWeight_elem.
    + apply dampened_first.
      destruct (inCategory (sm_category m) ms); [inversion Hin|simpl; lia].
  - apply sumN_elem, list_elem_of_fmap_2.
    unfold categoriesOf. rewrite elem_of_remove_dups.
    now apply list_elem_of_fmap_2.
Qed.

Lemma tierOf_critical (th : Thresholds) (s : N) :
  criticalFrom th ≤ s → tierOf th s = CRITICAL.
Proof.
  intros H. unfold tierOf. now rewrite (proj2 (N.leb_le _ _) H).
Qed.

Lemma tierOf_zero (th : Thresholds) :
  validThresholds th → tierOf th 0 = NONE.
Proof.
  intros (H1 & H2 & H3 & H4). unfold tierOf.
  rewrite !(proj2 (N.leb_gt _ _)); [reflexivity|lia..].
Qed.










End DetectorFacts.

Section NormalizeFacts.
Import JsString Detector.

(** On ASCII text the Latin-1 normalisation is the case folding of
    [toLowerCase]. *)
Lemma latinNormalize_ascii (s : string) :
  isAscii s = true → latinNormalize s = toLowerCase s.
Proof.
  induction s as [|c s IH]; [reflexivity|].
  cbn [isAscii]. intros [Hc Hs]%andb_true_iff. apply N.ltb_lt in Hc.
  cbn [latinNormalize toLowerCase].
  assert (E1 : (N_of_ascii c =? 195)%N = false) by (apply N.eqb_neq; lia).
  assert (E2 : (N_of_ascii c =? 204)%N = false) by (apply N.eqb_neq; lia).
  rewrite E1, E2. cbn [andb].
  destruct s as [|c2 s]; [reflexivity|]. now rewrite (IH Hs).
Qed.

End NormalizeFacts.

(** C1. A text in which a CRITICAL-weighted term of the lexicon occurs
    at a word boundary (once is enough, whatever else the text holds) is
    assessed CRITICAL and escalated to TRIGGER_CRISIS_PROTOCOL; every
    assessment of tier CRITICAL is escalated to TRIGGER_CRISIS_PROTOCOL,
    whatever its score and categories. *)
Theorem critical_term_triggers_crisis_protocol
    (cfg : Detector.Config) (d : Detector.SignalDefinition)
    (text pre post : string) :
  d ∈ Detector.lexicon cfg →
  Detector.criticalTerm (Detector.thresholds cfg) d →
  Detector.normalize cfg (Detector.sd_literal d) ≠ EmptyString →
  Detector.normalize cfg text
  = pre +:+ Detector.normalize cfg (Detector.sd_literal d) +:+ post →
  Detector.endsInWord false pre = false →
  Detector.tier (Detector.assess cfg text) = Detector.CRITICAL
  ∧ Detector.action (Detector.escalate cfg (Detector.assess cfg text))
    = Detector.TRIGGER_CRISIS_PROTOCOL
  ∧ (∀ ra : Detector.RiskAssessment,
       Detector.tier ra = Detector.CRITICAL →
       Detector.action (Detector.escalate cfg ra) = Detector.TRIGGER_CRISIS_PROTOCOL).
Proof.
  intros Hd Hw Hne Htext Hb.
  assert (Ht : Detector.tier (Detector.assess cfg text) = Detector.CRITICAL).
  { pose proof (scan_complete (Detector.normalize cfg) (Detector.lexicon cfg)
                  d pre post Hd Hne 0 false Hb) as Hm.
    rewrite <- Htext in Hm. apply totalScore_elem in Hm. cbn in Hm.
    unfold Detector.assess, Detector.riskScorer; cbn [Detector.tier].
    apply tierOf_critical. unfold Detector.criticalTerm in Hw.
    unfold Detector.signalMatcher. lia. }
  split; [exact Ht|]. split.
  - unfold Detector.escalate; cbn [Detector.action]. now rewrite Ht.
  - intros ra Hra. unfold Detector.escalate; cbn [Detector.action]. now rewrite Hra.
Qed.

Lemma critical_term_triggers_crisis_protocol_witness :
  Detector.tier (Detector.assess Samples.sampleConfig "I think I will PANIC, so tense")
  = Detector.CRITICAL
  ∧ Detector.action
      (Detector.escalate Samples.sampleConfig
         (Detector.assess Samples.sampleConfig "I think I will PANIC, so tense"))
    = Detector.TRIGGER_CRISIS_PROTOCOL.
Proof.
  destruct (critical_term_triggers_crisis_protocol Samples.sampleConfig
              Samples.panicSignal "I think I will PANIC, so tense"
              "i think i will " ", so tense") as (Ht & Ha & _).
  - apply list_elem_of_In. do 3 right. left. reflexivity.
  - vm_compute. discriminate.
  - discriminate.
  - reflexivity.
  - reflexivity.
  - split; [exact Ht|exact Ha].
Defined.

(** C4. A text in which no lexicon literal occurs (the empty text is
    one) is assessed without a match: the matcher returns the empty
    sequence, the score is 0, the tier NONE and the action NO_ACTION. *)
Theorem no_lexicon_term_no_action (cfg : Detector.Config) (text : string) :
  Detector.validThresholds (Detector.thresholds cfg) →
  Forall (λ d, JsString.includes (Detector.normalize cfg text)
                 (Detector.normalize cfg (Detector.sd_literal d)) = false)
         (Detector.lexicon cfg) →
  Detector.signalMatcher (Detector.normalize cfg) (Detector.lexicon cfg) text = []
  ∧ Detector.assess cfg text
    = {| Detector.score := 0; Detector.tier := Detector.NONE;
         Detector.matchedCategories := [] |}
  ∧ Detector.action (Detector.escalate cfg (Detector.assess cfg text))
    = Detector.NO_ACTION.
Proof.
  intros Hth Hno.
  assert (E : Detector.signalMatcher (Detector.normalize cfg)
                (Detector.lexicon cfg) text = [])
    by (now apply scan_no_occurrence).
  assert (A : Detector.assess cfg text
              = {| Detector.score := 0; Detector.tier := Detector.NONE;
                   Detector.matchedCategories := [] |}).
  { unfold Detector.assess. rewrite E. unfold Detector.riskScorer.
    change (Detector.totalScore []) with 0%N.
    now rewrite (tierOf_zero _ Hth). }
  split; [exact E|]. split; [exact A|]. now rewrite A.
Qed.

Lemma no_lexicon_term_no_action_witness :
  Detector.signalMatcher (Detector.normalize Samples.sampleConfig)
    (Detector.lexicon Samples.sampleConfig) "" = []
  ∧ Detector.tier (Detector.assess Samples.sampleConfig "") = Detector.NONE
  ∧ Detector.action
      (Detector.escalate Samples.sampleConfig
         (Detector.assess Samples.sampleConfig "")) = Detector.NO_ACTION
  ∧ Detector.tier (Detector.assess Samples.sampleConfig "Lovely weather today!")
    = Detector.NONE.
Proof.
  destruct (no_lexicon_term_no_action Samples.sampleConfig "") as (E & A & N).
  - vm_compute. repeat split; discriminate.
  - repeat constructor.
  - destruct (no_lexicon_term_no_action Samples.sampleConfig "Lovely weather today!")
      as (_ & A' & _).
    + vm_compute. repeat split; discriminate.
    + repeat constructor.
    + split; [exact E|]. split; [now rewrite A|]. split; [exact N|now rewrite A'].
Defined.

Section WordBoundaryFacts.
Import JsString Detector.

(** Where a literal can stand inside a known span of the text. *)
Lemma span_mismatch (pre post pre' post' w r lit : string) :
  pre +:+ (w +:+ r +:+ post) = pre' +:+ lit +:+ post' →
  String.length pre' = String.length pre + String.length w →
  r +:+ post = lit +:+ post'.
Proof.
  intros E L. rewrite <- append_assoc in E.
  apply append_inj_length in E as [_ E]; [exact E|].
  rewrite append_length. now rewrite L.
Qed.

(** The signal "stress" has no match that begins inside an occurrence
    of "compressed". *)
Lemma no_stress_in_compressed (norm : string → string)
      (lex : list SignalDefinition) (d : SignalDefinition)
      (text pre post : string) (m : SignalMatch) :
  uniqueIds lex → d ∈ lex → norm (sd_literal d) = "stress" →
  norm text = pre +:+ "compressed" +:+ post →
  m ∈ signalMatcher norm lex text → sm_signalId m = sd_id d →
  ¬ (String.length pre ≤ sm_position m < String.length pre + 10).
Proof.
  intros Hu Hd Hl Ht Hm Hid [Hlo Hhi]. unfold signalMatcher in Hm.
  destruct (scan_sound _ _ _ _ _ _ Hm) as (d' & pre' & post' & Hd' & E & _ & ->).
  cbn in Hid, Hlo, Hhi.
  assert (d' = d) as -> by (now apply (uniqueIds_inj lex)).
  rewrite Hl, Ht in E.
  assert (Hk : ∃ k, k < 10 ∧ String.length pre' = String.length pre + k)
    by (exists (String.length pre' - String.length pre); lia).
  destruct Hk as (k & Hk & L).
  assert (Hcase : ∀ w r : string,
            w +:+ r = "compressed" → String.length w = k →
            r +:+ post = "stress" +:+ post').
  { intros w r Hw Hlen. apply (span_mismatch pre post pre' post' w r "stress").
    - rewrite <- E. f_equal. rewrite <- append_assoc. now rewrite Hw.
    - now rewrite Hlen. }
  destruct k as [|[|[|[|[|[|[|[|[|[|k]]]]]]]]]]; [..|lia].
  - specialize (Hcase "" "compressed" eq_refl eq_refl). discriminate Hcase.
  - specialize (Hcase "c" "ompressed" eq_refl eq_refl). discriminate Hcase.
  - specialize (Hcase "co" "mpressed" eq_refl eq_refl). discriminate Hcase.
  - specialize (Hcase "com" "pressed" eq_refl eq_refl). discriminate Hcase.
  - specialize (Hcase "comp" "ressed" eq_refl eq_refl). discriminate Hcase.
  - specialize (Hcase "compr" "essed" eq_refl eq_refl). discriminate Hcase.
  - specialize (Hcase "compre" "ssed" eq_refl eq_refl). discriminate Hcase.
  - specialize (Hcase "compres" "sed" eq_refl eq_refl). discriminate Hcase.
  - specialize (Hcase "compress" "ed" eq_refl eq_refl). discriminate Hcase.
  - specialize (Hcase "compresse" "d" eq_refl eq_refl). discriminate Hcase.
Qed.

End WordBoundaryFacts.

(** C5. The matcher works on the normalised (case-folded) text and on
    word boundaries. For a lexicon with a "stress" signal: a text with
    the word "stressed" has a match of that signal where the word
    begins; no match of that signal begins inside an occurrence of
    "compressed"; and no match of any signal begins in the middle of a
    word. Over the README keywords, whatever their weights: ASCII texts
    that differ in case only have the same matches, "So STRESSED",
    "(stressed)" and the accented "stréssed" match "stress" where the
    word begins, "compressed" matches nothing, and "intense", which
    contains the literal "tense", matches nothing. *)
Theorem matcher_is_case_insensitive_and_word_bound
    (cfg : Detector.Config) (d : Detector.SignalDefinition)
    (text pre post : string)
    (weightOf : string → N) (categoryOf : string → string) :
  d ∈ Detector.lexicon cfg →
  Detector.uniqueIds (Detector.lexicon cfg) →
  Detector.normalize cfg (Detector.sd_literal d) = "stress" →
  let matches := Detector.signalMatcher (Detector.normalize cfg)
                   (Detector.lexicon cfg) text in
  let readme := Detector.signalMatcher Detector.latinNormalize
                  (Detector.stressLexicon weightOf categoryOf) in
  let stress := Detector.signalOf weightOf categoryOf 0 "stress" in
  (Detector.normalize cfg text = pre +:+ "stressed" +:+ post →
   Detector.endsInWord false pre = false →
   Detector.mkMatch d (String.length pre) ∈ matches)
  ∧ (Detector.normalize cfg text = pre +:+ "compressed" +:+ post →
     ∀ m, m ∈ matches → Detector.sm_signalId m = Detector.sd_id d →
          ¬ (String.length pre ≤ Detector.sm_position m < String.length pre + 10))
  ∧ (∀ m before rest,
       m ∈ matches → Detector.normalize cfg text = before +:+ rest →
       Detector.sm_position m = String.length before →
       Detector.endsInWord false before = false)
  ∧ (∀ text1 text2 : string,
       Detector.isAscii text1 = true → Detector.isAscii text2 = true →
       JsString.toLowerCase text1 = JsString.toLowerCase text2 →
       readme text1 = readme text2)
  ∧ readme "So STRESSED" = [Detector.mkMatch stress 3]
  ∧ readme "(stressed)" = [Detector.mkMatch stress 1]
  ∧ readme "stréssed" = [Detector.mkMatch stress 0]
  ∧ readme "compressed" = []
  ∧ (JsString.includes "intense" "tense" = true ∧ readme "intense" = []).
Proof.
  intros Hd Hu Hl matches readme stress.
  split; [|split; [|split; [|split]]].
  - intros Ht Hb. unfold matches, Detector.signalMatcher. rewrite Ht.
    assert (Hne : Detector.normalize cfg (Detector.sd_literal d) ≠ EmptyString)
      by (rewrite Hl; discriminate).
    pose proof (scan_complete (Detector.normalize cfg) (Detector.lexicon cfg)
                  d pre ("ed" +:+ post) Hd Hne 0 false Hb) as Hm.
    rewrite Hl in Hm. exact Hm.
  - intros Ht m Hm Hid.
    exact (no_stress_in_compressed _ _ d text pre post m Hu Hd Hl Ht Hm Hid).
  - intros m before rest Hm Ht Hp.
    exact (signalMatcher_at_boundary _ _ text before rest m Hm Ht Hp).
  - intros text1 text2 H1 H2 E. unfold readme, Detector.signalMatcher.
    now rewrite (latinNormalize_ascii _ H1), (latinNormalize_ascii _ H2), E.
  - repeat split; reflexivity.
Qed.

Lemma matcher_is_case_insensitive_and_word_bound_witness :
  Detector.mkMatch Samples.stressSignal 12
  ∈ Detector.signalMatcher (Detector.normalize Samples.sampleConfig)
      (Detector.lexicon Samples.sampleConfig) "I am SO... (Stressed), really"
  ∧ ∀ m, m ∈ Detector.signalMatcher (Detector.normalize Samples.sampleConfig)
               (Detector.lexicon Samples.sampleConfig) "a Compressed file"
         → Detector.sm_signalId m = 0
         → ¬ (2 ≤ Detector.sm_position m < 12).
Proof.
  split.
  - destruct (matcher_is_case_insensitive_and_word_bound Samples.sampleConfig
                Samples.stressSignal "I am SO... (Stressed), really"
                "i am so... (" "), really"
                Samples.sampleWeight Samples.sampleCategory) as (Hm & _).
    + apply list_elem_of_In. left. reflexivity.
    + vm_compute. repeat constructor; rewrite ?list_elem_of_In; simpl;
        intuition discriminate.
    + reflexivity.
    + apply Hm; reflexivity.
  - destruct (matcher_is_case_insensitive_and_word_bound Samples.sampleConfig
                Samples.stressSignal "a Compressed file" "a " " file"
                Samples.sampleWeight Samples.sampleCategory) as (_ & Hn & _).
    + apply list_elem_of_In. left. reflexivity.
    + vm_compute. repeat constructor; rewrite ?list_elem_of_In; simpl;
        intuition discriminate.
    + reflexivity.
    + intros m Hm Hid. exact (Hn eq_refl m Hm Hid).
Defined.




(** ** Runs of the start-up script *)

(** Membership in an explicit trace, by running through it. *)
Ltac trace_unfold :=
  unfold ServerTrace.setupEvents, ServerTrace.connectedEvents,
    ServerTrace.listeningEvents;
  rewrite ?list_elem_of_In; cbn [app In].
Ltac trace_pick := repeat (first [left; reflexivity | right]).
Ltac trace_cases H :=
  repeat destruct H as [H|H]; try discriminate H; try contradiction.

Section ServerRunFacts.
Import Server ServerTrace.

(** The script up to [startServer()], once the validation has passed. *)
Lemma run_after_validation (w : World) :
  validationPassed (envAfterDotenv w) = true →
  run w = (startServer w (PORT (envAfterDotenv w)) (NODE_ENV (envAfterDotenv w)) ;;
           listenSettles w (PORT (envAfterDotenv w)) (NODE_ENV (envAfterDotenv w)))
            (setupEvents (envAfterDotenv w)).
Proof.
  intros Hv. unfold run, main. rewrite bind_emit.
  rewrite (bind_Normal _ _ _ _ _ (validateEnv_passes _ _ Hv)).
  now rewrite !bind_emit.
Qed.

(** The four ways a validated run ends. *)
Lemma run_validated_cases (w : World) :
  let env := envAfterDotenv w in
  validationPassed env = true →
  match mongoRejects w (MONGODB_URI w), listenOutcome w (PORT env) with
  | Some error, _ =>
      run w = (Exited 1,
               setupEvents env
               ++ [EvMongooseConnect (MONGODB_URI w);
                   EvLogError "MongoDB connection error:" error])
  | None, ListenThrows error =>
      run w = (Exited 1,
               setupEvents env ++ connectedEvents w
               ++ [EvListen (PORT env); EvLogError "Failed to start server:" error])
  | None, ListenErrorEvent error =>
      run w = (Thrown error,
               setupEvents env ++ connectedEvents w ++ [EvListen (PORT env)])
  | None, ListenCallback =>
      run w = (Normal (),
               setupEvents env ++ connectedEvents w
               ++ EvListen (PORT env) :: listeningEvents (PORT env) (NODE_ENV env))
  end.
Proof.
  intros env Hv. rewrite (run_after_validation w Hv). fold env.
  unfold startServer, connectDB, mongooseConnect, appListen, listenSettles,
    listenCallback, listenThrows, tryCatch, bind, emit, throw, processExit, ret.
  destruct (mongoRejects w (MONGODB_URI w)) as [e|].
  - now rewrite <- !app_assoc.
  - destruct (listenOutcome w (PORT env)) as [e| |e]; now rewrite <- !app_assoc.
Qed.

Lemma run_failed_validation (w : World) :
  validationPassed (envAfterDotenv w) = false →
  ∃ v, v ∈ requiredEnvVars ∧ truthy (envAfterDotenv w !! v) = false
       ∧ run w = (Thrown (notSet v), [EvDotenvConfig]).
Proof.
  intros H. destruct (validateEnv_throws _ [EvDotenvConfig] H) as (v & Hv & Hf & E).
  exists v. split; [assumption|]. split; [assumption|].
  unfold run, main. rewrite bind_emit. now apply bind_Thrown.
Qed.

End ServerRunFacts.

(** X1. [app.listen] is reached exactly when every required variable is
    truthy and [mongoose.connect] resolves. *)
Theorem listen_reached_iff (w : Server.World) :
  Server.serving (Server.run w).2 = true
  ↔ Server.validationPassed (Server.envAfterDotenv w) = true
    ∧ Server.mongoRejects w (Server.MONGODB_URI w) = None.
Proof.
  destruct (Server.validationPassed (Server.envAfterDotenv w)) eqn:Hv.
  - pose proof (run_validated_cases w Hv) as H. cbv zeta in H.
    destruct (Server.mongoRejects w (Server.MONGODB_URI w)) as [e|].
    + rewrite H. split; [discriminate|now intros [_ ?]].
    + destruct (Server.listenOutcome w _) as [e| |e]; rewrite H; split; auto.
  - destruct (run_failed_validation w Hv) as (v & _ & _ & E). rewrite E.
    split; [discriminate|now intros [? _]].
Qed.

(** X2. How a run can end. An error escapes the script in two cases
    only: the validation throws, when nothing but [dotenv.config()] has
    happened, or, after [app.listen] was called, the server emits an
    'error' event that nothing handles. The only exit code is 1, used
    after a passed validation when MongoDB rejects or [app.listen]
    throws. The script and the listen callback run to their end exactly
    when the validation passes, MongoDB connects and the callback is
    run. *)
Theorem run_completion_cases (w : Server.World) :
  let env := Server.envAfterDotenv w in
  (∀ msg, (Server.run w).1 = Server.Thrown msg →
     (Server.validationPassed env = false
      ∧ (Server.run w).2 = [Server.EvDotenvConfig])
     ∨ (Server.validationPassed env = true
        ∧ Server.mongoRejects w (Server.MONGODB_URI w) = None
        ∧ Server.listenOutcome w (Server.PORT env) = Server.ListenErrorEvent msg
        ∧ Server.serving (Server.run w).2 = true))
  ∧ (∀ code, (Server.run w).1 = Server.Exited code →
       code = 1%Z ∧ Server.validationPassed env = true
       ∧ (is_Some (Server.mongoRejects w (Server.MONGODB_URI w))
          ∨ is_Some (Server.listenThrows w (Server.PORT env))))
  ∧ ((Server.run w).1 = Server.Normal ()
     ↔ Server.validationPassed env = true
       ∧ Server.mongoRejects w (Server.MONGODB_URI w) = None
       ∧ Server.listenOutcome w (Server.PORT env) = Server.ListenCallback).
Proof.
  intros env. unfold Server.listenThrows.
  destruct (Server.validationPassed env) eqn:Hv.
  - pose proof (run_validated_cases w Hv) as H. cbv zeta in H. fold env in H.
    destruct (Server.mongoRejects w (Server.MONGODB_URI w)) as [e|];
      [|destruct (Server.listenOutcome w (Server.PORT env)) as [e| |e]];
      rewrite H; cbn [fst snd]; (split; [|split; [|split]]);
      try discriminate; try (now intros (_ & ? & ?)); try (intros _; tauto).
    + intros code [= <-]. split; [reflexivity|]. split; [reflexivity|]. left. eauto.
    + intros code [= <-]. split; [reflexivity|]. split; [reflexivity|]. right. eauto.
    + intros msg [= <-]. right. repeat split; reflexivity.
  - destruct (run_failed_validation w Hv) as (v & _ & _ & E). rewrite E.
    cbn [fst snd]. split; [|split; [|split]];
      try discriminate; try (now intros (? & _)).
    intros msg _. left. split; reflexivity.
Qed.

Lemma run_completion_cases_witness :
  (Server.run Samples.worldPortTaken).1 = Server.Thrown "EADDRINUSE"
  ∧ Server.listenOutcome Samples.worldPortTaken
      (Server.PORT (Server.envAfterDotenv Samples.worldPortTaken))
    = Server.ListenErrorEvent "EADDRINUSE"
  ∧ Server.serving (Server.run Samples.worldPortTaken).2 = true.
Proof.
  assert (E : (Server.run Samples.worldPortTaken).1 = Server.Thrown "EADDRINUSE")
    by reflexivity.
  destruct (run_completion_cases Samples.worldPortTaken) as (Hthrown & _ & _).
  destruct (Hthrown _ E) as [[Hv _]|(_ & _ & Hl & Hs)]; [discriminate Hv|].
  split; [exact E|]. split; [exact Hl|exact Hs].
Defined.

(** X3. "Failed to start server:" is logged exactly when [app.listen]
    throws, with the error it threw; a MongoDB error never reaches the
    [catch] of [startServer], since [connectDB] ends the process itself;
    and the run then exits with code 1. *)
Theorem startServer_catches_only_listen (w : Server.World) (error : string) :
  let env := Server.envAfterDotenv w in
  Server.EvLogError "Failed to start server:" error ∈ (Server.run w).2
  ↔ Server.validationPassed env = true
    ∧ Server.mongoRejects w (Server.MONGODB_URI w) = None
    ∧ Server.listenThrows w (Server.PORT env) = Some error.
Proof.
  intros env. unfold Server.listenThrows.
  destruct (Server.validationPassed env) eqn:Hv.
  - pose proof (run_validated_cases w Hv) as H. cbv zeta in H. fold env in H.
    destruct (Server.mongoRejects w (Server.MONGODB_URI w)) as [e|];
      [|destruct (Server.listenOutcome w (Server.PORT env)) as [e| |e]];
      rewrite H; cbn [snd]; trace_unfold;
      split; intros Hin;
      try (destruct Hin as (_ & ? & ?); congruence);
      try (trace_cases Hin).
    + injection Hin as ->. auto.
    + destruct Hin as (_ & _ & [= ->]). trace_pick.
  - destruct (run_failed_validation w Hv) as (v & _ & _ & E). rewrite E. cbn [snd].
    trace_unfold. split.
    + intros [?|[]]; discriminate.
    + now intros [? _].
Qed.

(** X4. The validation loop, over any list of variable names: it passes
    when every variable is truthy, and otherwise throws the error
    naming the first variable of the list that is not; in both cases it
    does nothing else. *)
Theorem validateEnv_names_first_falsy
    (env : gmap string string) (vars : list string) (tr : list Server.Event) :
  (Forall (λ v, Server.truthy (env !! v) = true) vars
   ∧ Server.validateEnv env vars tr = (Server.Normal (), tr))
  ∨ (∃ before v after,
       vars = before ++ v :: after
       ∧ Forall (λ v, Server.truthy (env !! v) = true) before
       ∧ Server.truthy (env !! v) = false
       ∧ Server.validateEnv env vars tr = (Server.Thrown (ServerTrace.notSet v), tr)).
Proof.
  induction vars as [|v vars IH].
  - left. split; [constructor|reflexivity].
  - cbn [Server.validateEnv]. destruct (Server.truthy (env !! v)) eqn:Hv.
    + destruct IH as [[Hall E]|(before & v' & after & -> & Hall & Hf & E)].
      * left. split; [now constructor|exact E].
      * right. exists (v :: before), v', after.
        split; [reflexivity|]. split; [now constructor|]. now split.
    + right. exists [], v, vars.
      split; [reflexivity|]. split; [constructor|]. now split.
Qed.

(** X5. A required variable that is set to the empty string is
    rejected like an unset one: the script throws before [express()] is
    called. If [DATABASE_URL] is not truthy the error names it, whatever
    [PORT] is; [PORT] is named only when [DATABASE_URL] is truthy. *)
Theorem empty_value_is_rejected (w : Server.World) (v : string) :
  let env := Server.envAfterDotenv w in
  v ∈ Server.requiredEnvVars →
  env !! v = Some "" →
  Server.appCreated (Server.run w).2 = false
  ∧ (Server.truthy (env !! "DATABASE_URL") = false →
     (Server.run w).1 = Server.Thrown "Environment variable DATABASE_URL is not set.")
  ∧ (Server.truthy (env !! "DATABASE_URL") = true →
     (Server.run w).1 = Server.Thrown "Environment variable PORT is not set.").
Proof.
  intros env Hin Hv. subst env.
  assert (Hf : Server.truthy (Server.envAfterDotenv w !! v) = false) by now rewrite Hv.
  assert (Hrun : ∀ name, Server.validateEnv (Server.envAfterDotenv w)
                           Server.requiredEnvVars
                           [Server.EvDotenvConfig]
                         = (Server.Thrown (ServerTrace.notSet name), [Server.EvDotenvConfig]) →
                 Server.run w = (Server.Thrown (ServerTrace.notSet name),
                                 [Server.EvDotenvConfig])).
  { intros name E. unfold Server.run, Server.main. rewrite bind_emit.
    now apply bind_Thrown. }
  unfold Server.requiredEnvVars in Hin.
  apply elem_of_cons in Hin as [->|Hin]; [|apply elem_of_cons in Hin as [->|Hin]].
  - rewrite (Hrun "DATABASE_URL") by (unfold Server.requiredEnvVars; cbn [Server.validateEnv]; now rewrite Hf).
    split; [reflexivity|]. split; [reflexivity|]. congruence.
  - destruct (Server.truthy (Server.envAfterDotenv w !! "DATABASE_URL")) eqn:Hd.
    + rewrite (Hrun "PORT")
        by (unfold Server.requiredEnvVars; cbn [Server.validateEnv]; now rewrite Hd, Hf).
      split; [reflexivity|]. split; [discriminate|reflexivity].
    + rewrite (Hrun "DATABASE_URL")
        by (unfold Server.requiredEnvVars; cbn [Server.validateEnv]; now rewrite Hd).
      split; [reflexivity|]. split; [reflexivity|discriminate].
  - inversion Hin.
Qed.

Lemma empty_value_is_rejected_witness :
  Server.envAfterDotenv Samples.worldEmptyPort !! "PORT" = Some ""
  ∧ Server.run Samples.worldEmptyPort
    = (Server.Thrown "Environment variable PORT is not set.", [Server.EvDotenvConfig])
  ∧ Server.appCreated (Server.run Samples.worldEmptyPort).2 = false.
Proof.
  split; [reflexivity|]. split; [reflexivity|].
  apply (empty_value_is_rejected Samples.worldEmptyPort "PORT").
  - unfold Server.requiredEnvVars. right. left.
  - reflexivity.
Defined.

Section ConnectFacts.
Import Server ServerTrace.

Lemma MONGODB_URI_setenv (w : World) (name value : string) :
  name ≠ "MONGODB_URI" → MONGODB_URI (setenv name value w) = MONGODB_URI w.
Proof.
  intros Hne. unfold MONGODB_URI, setenv; cbn [processEnv].
  now rewrite lookup_insert_ne.
Qed.

(** Every connection a run opens goes to [MONGODB_URI]. *)
Lemma run_connects_to_MONGODB_URI (w : World) (uri : string) :
  EvMongooseConnect uri ∈ (run w).2 → uri = MONGODB_URI w.
Proof.
  destruct (validationPassed (envAfterDotenv w)) eqn:Hv.
  - pose proof (run_validated_cases w Hv) as H. cbv zeta in H.
    destruct (mongoRejects w (MONGODB_URI w)) as [e|];
      [|destruct (listenOutcome w (PORT (envAfterDotenv w))) as [e| |e]];
      rewrite H; cbn [snd]; trace_unfold;
      intros Hin; trace_cases Hin; congruence.
  - destruct (run_failed_validation w Hv) as (v & _ & _ & E). rewrite E. cbn [snd].
    trace_unfold. intros [?|[]]; discriminate.
Qed.

End ConnectFacts.

(** X6. The database the server connects to does not depend on the
    validated [DATABASE_URL]: whatever value that variable is given, every
    [mongoose.connect] of the run targets [MONGODB_URI], the inherited
    variable of that name when it is not empty and the built-in address
    otherwise. *)
Theorem connect_ignores_DATABASE_URL
    (w : Server.World) (value uri : string) :
  Server.EvMongooseConnect uri
    ∈ (Server.run (ServerTrace.setenv "DATABASE_URL" value w)).2 →
  uri = Server.MONGODB_URI w
  ∧ (Server.truthy (Server.processEnv w !! "MONGODB_URI") = false →
     uri = Server.fallbackMongoUri)
  ∧ (∀ s, Server.truthy (Server.processEnv w !! "MONGODB_URI") = true →
          Server.processEnv w !! "MONGODB_URI" = Some s → uri = s).
Proof.
  intros Hin. apply run_connects_to_MONGODB_URI in Hin.
  rewrite MONGODB_URI_setenv in Hin by discriminate. subst uri.
  split; [reflexivity|]. unfold Server.MONGODB_URI.
  destruct (Server.processEnv w !! "MONGODB_URI") as [[|c s]|]; cbn;
    split; try discriminate; try reflexivity.
  now intros s' _ [= <-].
Qed.

Lemma connect_ignores_DATABASE_URL_witness :
  Server.EvMongooseConnect Server.fallbackMongoUri
    ∈ (Server.run (ServerTrace.setenv "DATABASE_URL" "postgres://elsewhere/db"
                     Samples.worldHealthy)).2
  ∧ Server.fallbackMongoUri = Server.MONGODB_URI Samples.worldHealthy.
Proof.
  assert (H : Server.EvMongooseConnect Server.fallbackMongoUri
                ∈ (Server.run (ServerTrace.setenv "DATABASE_URL" "postgres://elsewhere/db"
                                 Samples.worldHealthy)).2).
  { apply list_elem_of_In. vm_compute. do 13 right. left. reflexivity. }
  split; [exact H|].
  exact (proj1 (connect_ignores_DATABASE_URL Samples.worldHealthy
                  "postgres://elsewhere/db" Server.fallbackMongoUri H)).
Defined.

(** X7. [connectDB] never throws: when [mongoose.connect] resolves it
    returns after logging the connection, and when it rejects it logs
    the error and ends the process with code 1. Either way it opens one
    connection, to [MONGODB_URI], and leaves the earlier events alone. *)
Theorem connectDB_never_throws (w : Server.World) (tr : list Server.Event) :
  (∀ error tr', Server.connectDB w tr ≠ (Server.Thrown error, tr'))
  ∧ (Server.mongoRejects w (Server.MONGODB_URI w) = None →
     Server.connectDB w tr
     = (Server.Normal (),
        tr ++ [Server.EvMongooseConnect (Server.MONGODB_URI w);
               Server.EvLogInfo "Connected to MongoDB Atlas"]))
  ∧ (∀ error, Server.mongoRejects w (Server.MONGODB_URI w) = Some error →
     Server.connectDB w tr
     = (Server.Exited 1,
        tr ++ [Server.EvMongooseConnect (Server.MONGODB_URI w);
               Server.EvLogError "MongoDB connection error:" error])).
Proof.
  unfold Server.connectDB, Server.tryCatch, Server.mongooseConnect, Server.bind,
    Server.emit, Server.throw, Server.processExit, Server.ret.
  destruct (Server.mongoRejects w (Server.MONGODB_URI w)) as [e|];
    repeat split; try discriminate.
  - intros error [= <-]. now rewrite <- app_assoc.
  - intros _. now rewrite <- app_assoc.
Qed.

(** X8. The mode of the server: CORS and the request log are set up
    once each; outside production ([NODE_ENV] unset, empty or any text
    other than "production") the CORS origin is the wildcard and the log
    format "dev"; in production the origin is [FRONTEND_URL], undefined
    when that variable is unset, and the format "combined". *)
Theorem NODE_ENV_selects_cors_and_logging
    (w : Server.World) (origin : option string) (format : string) :
  let env := Server.envAfterDotenv w in
  Server.validationPassed env = true →
  (Server.truthy (env !! "NODE_ENV") = false → Server.NODE_ENV env = "development")
  ∧ (Server.EvUseCors origin ∈ (Server.run w).2
     ↔ origin = if String.eqb (Server.NODE_ENV env) "production"
                then env !! "FRONTEND_URL" else Some "*")
  ∧ (Server.EvUseMorgan format ∈ (Server.run w).2
     ↔ format = if String.eqb (Server.NODE_ENV env) "production"
                then "combined" else "dev").
Proof.
  intros env Hv. split.
  { unfold Server.NODE_ENV. now destruct (env !! "NODE_ENV") as [[|c s]|]. }
  pose proof (run_validated_cases w Hv) as H. cbv zeta in H. fold env in H.
  destruct (Server.mongoRejects w (Server.MONGODB_URI w)) as [e|];
    [|destruct (Server.listenOutcome w (Server.PORT env)) as [e| |e]];
    rewrite H; cbn [snd]; trace_unfold;
    (split;
     (split;
      [ intros Hin; trace_cases Hin; congruence
      | intros ->; trace_pick ])).
Qed.

Lemma NODE_ENV_selects_cors_and_logging_witness :
  Server.EvUseCors (Some "*") ∈ (Server.run Samples.worldHealthy).2
  ∧ Server.EvUseMorgan "dev" ∈ (Server.run Samples.worldHealthy).2.
Proof.
  destruct (NODE_ENV_selects_cors_and_logging Samples.worldHealthy (Some "*") "dev")
    as (_ & Hc & Hm); [reflexivity|].
  split; [apply Hc; reflexivity|apply Hm; reflexivity].
Defined.

(** ** next.config: the [webpack] hook *)

(** X9. The [webpack] hook turns the aliases "sharp$" and "canvas$"
    off, whatever they were, keeps every other alias (none when
    [resolve.alias] was undefined) and changes nothing else of the
    configuration. *)
Theorem webpack_alias_lookup
    (config : NextWebpack.WebpackConfig) (ctx : NextWebpack.WebpackContext)
    (name : string) :
  let config' := NextWebpack.webpack config ctx in
  let alias' := NextWebpack.spread (NextWebpack.resolveAlias config') in
  alias' !! "sharp$" = Some NextWebpack.AliasFalse
  ∧ alias' !! "canvas$" = Some NextWebpack.AliasFalse
  ∧ (name ≠ "sharp$" → name ≠ "canvas$" →
     alias' !! name
     = NextWebpack.spread (NextWebpack.resolveAlias config) !! name)
  ∧ NextWebpack.resolveOther config' = NextWebpack.resolveOther config
  ∧ NextWebpack.configOther config' = NextWebpack.configOther config.
Proof.
  cbn. repeat split.
  - rewrite lookup_insert_ne by discriminate. apply lookup_insert_eq.
  - apply lookup_insert_eq.
  - intros Hs Hc. now rewrite !lookup_insert_ne by congruence.
Qed.

(** X10. The [webpack] hook is idempotent and does not look at
    [isServer] or [dev]: running it again, in whatever build, gives the
    configuration of the first run. *)
Theorem webpack_idempotent
    (config : NextWebpack.WebpackConfig) (ctx ctx' : NextWebpack.WebpackContext) :
  NextWebpack.webpack (NextWebpack.webpack config ctx) ctx'
  = NextWebpack.webpack config ctx
  ∧ NextWebpack.webpack config ctx' = NextWebpack.webpack config ctx.
Proof.
  split; [|reflexivity].
  unfold NextWebpack.webpack; cbn. f_equal. f_equal.
  apply map_eq. intros k.
  destruct (decide (k = "canvas$")) as [->|Hc].
  - now rewrite !lookup_insert_eq.
  - destruct (decide (k = "sharp$")) as [->|Hs].
    + rewrite !(lookup_insert_ne _ "canvas$" "sharp$") by discriminate.
      now rewrite !lookup_insert_eq.
    + now rewrite !lookup_insert_ne by congruence.
Qed.

(** ** The Inngest adapter: [serve] and [url] *)

Section AdapterServeFacts.
Import JsString AdapterServe.

Lemma includes_middle (a sub b : string) : includes ((a +:+ sub) +:+ b) sub = true.
Proof. apply includes_spec. exists a, b. apply append_assoc. Qed.

Lemma includes_nil_false (c : ascii) (sub : string) :
  includes EmptyString (String c sub) = false.
Proof. reflexivity. Qed.

End AdapterServeFacts.

(** X11. The options [serve] passes on: the handler is always the
    adapter's own, even when the caller supplies a "handler" option; the
    framework name is the caller's "frameworkName" when the options have
    one and "express" otherwise; every other option is passed through
    unchanged, and absent options add nothing. *)
Theorem serve_options_merge
    (options : option (gmap string AdapterServe.OptionValue)) (key : string) :
  let given := λ k, options ≫= (λ o, o !! k) in
  AdapterServe.commHandlerOptions options !! "handler"
  = Some AdapterServe.expressHandler
  ∧ AdapterServe.commHandlerOptions options !! "frameworkName"
    = Some (default (AdapterServe.Plain (Adapter.JsString "express"))
                    (given "frameworkName"))
  ∧ (key ≠ "handler" → key ≠ "frameworkName" →
     AdapterServe.commHandlerOptions options !! key = given key).
Proof.
  unfold AdapterServe.commHandlerOptions, AdapterServe.objectAssign.
  destruct options as [o|]; cbn.
  - repeat split.
    + rewrite lookup_union_l'; [apply lookup_singleton_eq|].
      rewrite lookup_singleton_eq. eauto.
    + rewrite lookup_union_r by (now apply lookup_singleton_ne).
      destruct (o !! "frameworkName") as [v|] eqn:E.
      * now rewrite (lookup_union_Some_l _ _ _ _ E).
      * rewrite lookup_union_r by assumption. apply lookup_singleton_eq.
    + intros Hh Hf.
      rewrite lookup_union_r by (now apply lookup_singleton_ne).
      destruct (o !! key) as [v|] eqn:E.
      * now rewrite (lookup_union_Some_l _ _ _ _ E).
      * rewrite lookup_union_r by assumption. now apply lookup_singleton_ne.
  - split; [reflexivity|]. split; [reflexivity|].
    intros Hh Hf.
    rewrite lookup_union_r by (now apply lookup_singleton_ne).
    now apply lookup_singleton_ne.
Qed.

(** X12. The base [url()] gives to [new URL] always carries a scheme
    separator: a host that has "://" in it is used as it is, any other
    host gets [req.protocol], or "https" when that is missing, put in
    front. A host header that is not empty makes the [serveHost] option
    irrelevant. *)
Theorem urlBase_has_scheme (host serveHost protocol : option string) :
  JsString.includes (AdapterServe.urlBase host serveHost protocol) "://" = true
  ∧ (∀ hostname, AdapterServe.orElse host serveHost = Some hostname →
       JsString.includes hostname "://" = true →
       AdapterServe.urlBase host serveHost protocol = hostname)
  ∧ (∀ hostname, AdapterServe.orElse host serveHost = Some hostname →
       JsString.includes hostname "://" = false →
       AdapterServe.urlBase host serveHost protocol
       = default "https" (AdapterServe.orElse protocol (Some "https"))
         +:+ "://" +:+ hostname)
  ∧ (∀ c s serveHost', host = Some (String c s) →
       AdapterServe.urlBase host serveHost protocol
       = AdapterServe.urlBase host serveHost' protocol).
Proof.
  unfold AdapterServe.urlBase.
  destruct (AdapterServe.orElse host serveHost) as [[|c h]|] eqn:E.
  - repeat split.
    + cbn. apply includes_middle.
    + intros hostname [= <-]. discriminate.
    + intros hostname [= <-] _. cbn. apply append_assoc.
    + intros c s sh' ->. discriminate E.
  - destruct (JsString.includes (String c h) "://") eqn:Hi.
    + repeat split.
      * exact Hi.
      * now intros hostname [= <-] _.
      * intros hostname [= <-]. congruence.
      * intros c' s sh' ->. cbn [AdapterServe.orElse] in E. injection E as <- <-.
        cbn [AdapterServe.orElse]. now rewrite Hi.
    + repeat split.
      * cbn [AdapterServe.orElse default]. apply includes_middle.
      * intros hostname [= <-]. congruence.
      * intros hostname [= <-] _. cbn [AdapterServe.orElse default]. apply append_assoc.
      * intros c' s sh' ->. cbn [AdapterServe.orElse] in E. injection E as <- <-.
        cbn [AdapterServe.orElse]. now rewrite Hi.
  - repeat split.
    + cbn. apply includes_middle.
    + discriminate.
    + discriminate.
    + intros c s sh' ->. discriminate E.
Qed.

(** X13. A start that succeeds, the callback of [app.listen] being
    run: the two lines the callback logs carry the text of
    [process.env.PORT], and the address logged for the Inngest UI ends in
    "/api/inngest", whereas the Inngest endpoint is mounted under
    "/api/v1/inngest" and nothing is mounted under "/api/inngest". *)
Theorem healthy_start_logs (w : Server.World) (port : string) :
  let env := Server.envAfterDotenv w in
  Server.validationPassed env = true →
  Server.mongoRejects w (Server.MONGODB_URI w) = None →
  Server.listenOutcome w (Server.PORT env) = Server.ListenCallback →
  env !! "PORT" = Some port →
  (Server.run w).1 = Server.Normal ()
  ∧ Server.EvListen (Server.PortString port) ∈ (Server.run w).2
  ∧ Server.EvLogInfo ("Server is running in " +:+ Server.NODE_ENV env
                      +:+ " mode on port " +:+ port) ∈ (Server.run w).2
  ∧ Server.EvLogInfo ("Inngest UI available at http://localhost:" +:+ port
                      +:+ "/api/inngest") ∈ (Server.run w).2
  ∧ Server.EvUse "/api/v1/inngest" ∈ (Server.run w).2
  ∧ Server.EvUse "/api/inngest" ∉ (Server.run w).2.
Proof.
  intros env Hv Hm Hl Hp.
  pose proof (run_validated_cases w Hv) as H. cbv zeta in H. fold env in H.
  rewrite Hm, Hl in H. rewrite H. cbn [fst snd].
  assert (Eport : Server.PORT env = Server.PortString port).
  { apply validationPassed_spec in Hv as [_ Ht]. rewrite Hp in Ht.
    unfold Server.PORT. rewrite Hp. now destruct port. }
  rewrite Eport. unfold Server.portText, not. trace_unfold.
  split; [reflexivity|].
  split; [trace_pick|]. split; [trace_pick|]. split; [trace_pick|].
  split; [trace_pick|].
  intros Hin. trace_cases Hin.
Qed.

Lemma healthy_start_logs_witness :
  (Server.run Samples.worldHealthy).1 = Server.Normal ()
  ∧ Server.EvLogInfo "Server is running in development mode on port 8080"
      ∈ (Server.run Samples.worldHealthy).2
  ∧ Server.EvLogInfo "Inngest UI available at http://localhost:8080/api/inngest"
      ∈ (Server.run Samples.worldHealthy).2.
Proof.
  destruct (healthy_start_logs Samples.worldHealthy "8080")
    as (Hn & _ & Hrun & Hui & _); try reflexivity.
  split; [exact Hn|]. split; [exact Hrun|exact Hui].
Defined.

(** X14. The error handler is the last middleware: whenever the app is
    created it is mounted, and no middleware or route is added after
    it. *)
Theorem errorHandler_is_mounted_last (w : Server.World) :
  (Server.appCreated (Server.run w).2 = true →
   Server.EvUse "errorHandler" ∈ (Server.run w).2)
  ∧ existsb ServerTrace.isMount
      (ServerTrace.eventsAfter ServerTrace.isErrorHandlerMount (Server.run w).2)
    = false.
Proof.
  destruct (Server.validationPassed (Server.envAfterDotenv w)) eqn:Hv.
  - pose proof (run_validated_cases w Hv) as H. cbv zeta in H.
    destruct (Server.mongoRejects w (Server.MONGODB_URI w)) as [e|];
      [|destruct (Server.listenOutcome w _) as [e| |e]];
      rewrite H; cbn [snd];
      (split; [intros _; trace_unfold; trace_pick|reflexivity]).
  - destruct (run_failed_validation w Hv) as (v & _ & _ & E). rewrite E.
    split; [discriminate|reflexivity].
Qed.
